(** * MyTaskly MCP server

    A shallow embedding of the MyTaskly MCP server: the bearer-token codec
    ([src/auth.py]), the formatting rules ([src/formatters.py]), the backend
    client ([src/client.py]), the tool façade ([src/server.py]) and the HTTP
    adapter ([src/http_server.py]).

    Python values are modelled as follows: [int] is [Z], [str] is [string]
    (a sequence of bytes, UTF-8 for the non-ASCII literals), [Optional[str]]
    is [option string], a [dict] with string keys is a [gmap string _], a JSON
    document is a [json], and a function that may raise returns [exn + A].
    Coroutines run sequentially inside one request, so [await] is the bind
    of a monad that threads the trace of outbound calls. *)

From Stdlib Require Import ZArith String Ascii List Lia DecimalString DecimalZ.
From stdpp Require Import base option gmap strings list.

Set Warnings "-register-all".
Local Open Scope Z_scope.
Local Open Scope string_scope.

(** ** Python built-ins used by the program *)

Module py.

(** [str(n)] for an [int]. *)
Definition str (n : Z) : string := NilZero.string_of_int (Z.to_int n).

(** [int(s)] for a [str] holding a decimal literal; [None] is [ValueError]. *)
Definition int (s : string) : option Z := Z.of_int <$> NilZero.int_of_string s.

(** [s.startswith(p)]. *)
Fixpoint startswith (p s : string) : bool :=
  match p with
  | EmptyString => true
  | String a p' =>
      match s with
      | EmptyString => false
      | String b s' => if Ascii.eqb a b then startswith p' s' else false
      end
  end.

(** [s[n:]]. *)
Fixpoint drop (n : nat) (s : string) : string :=
  match n with
  | O => s
  | S n' => match s with EmptyString => EmptyString | String _ s' => drop n' s' end
  end.

(** [needle in hay]. *)
Fixpoint contains (needle hay : string) : bool :=
  startswith needle hay
  || match hay with
     | EmptyString => false
     | String _ hay' => contains needle hay'
     end.

End py.

(** ** JSON documents and exceptions *)

Inductive json : Type :=
| JNull
| JBool (b : bool)
| JInt (z : Z)
| JStr (s : string)
| JArr (l : list json)
| JObj (o : gmap string json).

(** The exception classes the program raises or lets through. All of them
    derive from Python's [Exception]. *)
Inductive exn : Type :=
| HTTPException (status_code : Z) (detail : string)
                (headers : option (list (string * string)))   (* fastapi *)
| HTTPStatusError (message : string)     (* httpx: response.raise_for_status() *)
| RequestError (message : string)        (* httpx: connection failure, timeout *)
| JSONDecodeError (message : string)     (* response.json() on a non-JSON body *)
| KeyError (key : string)
| TypeError (message : string)
| DecodeError (message : string)         (* jwt: token is not a compact JWS *)
| InvalidSignatureError                  (* jwt *)
| ExpiredSignatureError.                 (* jwt *)

(** [str(exc)]. *)
Definition str_exn (e : exn) : string :=
  match e with
  | HTTPException c d _ => py.str c +:+ ": " +:+ d
  | HTTPStatusError m => m
  | RequestError m => m
  | JSONDecodeError m => m
  | KeyError k => "'" +:+ k +:+ "'"
  | TypeError m => m
  | DecodeError m => m
  | InvalidSignatureError => "Signature verification failed"
  | ExpiredSignatureError => "Signature has expired"
  end.

(** ** Configuration ([src/config.py], fields as read by [check_config.py]) *)

Record Settings := {
  jwt_secret_key : string;
  jwt_algorithm : string;
  mcp_audience : string;
  fastapi_base_url : string;
  fastapi_api_key : string;
  mcp_server_name : string;
  mcp_server_version : string;
  log_level : string;
}.

(** ** The JWT library

    [jwt.encode] and [jwt.decode] belong to PyJWT. The keyed signature and
    the compact serialisation are its business and stay abstract; what the
    library does with them (sign on encode; on decode parse, compare the
    signature, then validate [exp] against the clock) is written out. *)

Record jws := { jws_payload : gmap string json; jws_signature : string }.

Class PyJWT := {
  (** signature of a payload under an algorithm name and a key *)
  jws_sign : string -> string -> gmap string json -> string;
  (** compact serialisation of a signed token, and its parser *)
  jws_serialize : jws -> string;
  jws_parse : string -> option jws;
}.

Module jwt.
Section jwt.
Context `{PyJWT}.

Definition sign (payload : gmap string json) (key alg : string) : jws :=
  {| jws_payload := payload; jws_signature := jws_sign alg key payload |}.

(** [jwt.encode(payload, key, algorithm=alg)] *)
Definition encode (payload : gmap string json) (key alg : string) : string :=
  jws_serialize (sign payload key alg).

(** [jwt.decode(token, key, algorithms=[alg])] evaluated at instant [now]
    (seconds since the epoch). The expiry test is PyJWT's [exp <= now]. *)
Definition decode (now : Z) (token key alg : string) : exn + gmap string json :=
  match jws_parse token with
  | None => inl (DecodeError "Not enough segments")
  | Some j =>
      if negb (String.eqb (jws_signature j) (jws_sign alg key (jws_payload j)))
      then inl InvalidSignatureError
      else
        match jws_payload j !! "exp" with
        | None => inr (jws_payload j)
        | Some (JInt e) =>
            if (e <=? now)%Z then inl ExpiredSignatureError else inr (jws_payload j)
        | Some _ => inl (DecodeError "Expiration Time claim (exp) must be an integer.")
        end
  end.

(** The library reads back the token it has just written. *)
Definition reads_back (j : jws) : Prop := jws_parse (jws_serialize j) = Some j.

End jwt.
End jwt.

(** ** Token codec ([src/auth.py]) *)

Module auth.
Section auth.
Context `{PyJWT} (settings : Settings).

(** Modelled from the spec: [src/auth.py] is not among the sources. The
    payload of an issued credential contains the subject identifier, a
    fixed type tag, and an expiry instant now + ttl. The subject is stored
    as [str(user_id)] and the tag is the string access, as in the sibling
    [FastAPIClient._get_user_token]; the TTL is in minutes, as the tests
    pass it. *)
Definition test_payload (now : Z) (user_id : Z) (expires_minutes : Z) : gmap string json :=
  <["sub" := JStr (py.str user_id)]>
    (<["type" := JStr "access"]>
       (<["exp" := JInt (now + expires_minutes * 60)]> ∅)).

(** Modelled from the spec: [src/auth.py] is not among the sources, only its
    tests ([tests/test_auth.py]) and callers are. The spec has issue(subject,
    ttl) produce a signed credential with the payload above, under the
    single shared secret and signing algorithm of the configuration; the
    tests call it [create_test_token(user_id, expires_minutes)]. *)
Definition create_test_token (now : Z) (user_id : Z) (expires_minutes : Z) : string :=
  jwt.encode (test_payload now user_id expires_minutes)
             (jwt_secret_key settings) (jwt_algorithm settings).

(** The Unauthenticated error: FastAPI's [HTTPException] with status 401,
    as the tests assert. *)
Definition unauthenticated (detail : string) : exn := HTTPException 401 detail None.

(** Modelled from the spec: [src/auth.py] is not among the sources.
    The spec has verify(header_value) accept a value of the form
    Bearer <token>, and fail with an Unauthenticated error when the header
    is absent, malformed (no recognizable scheme prefix), the signature
    does not validate, or the expiry instant has passed; on success it
    returns the subject as an integer user identifier. The details for the
    absent header and the expired token are those the tests look for. *)
Definition verify_jwt_token (now : Z) (authorization : option string) : exn + Z :=
  match authorization with
  | None => inl (unauthenticated "Missing Authorization header")
  | Some header =>
      if negb (py.startswith "Bearer " header)
      then inl (unauthenticated "Invalid Authorization header format")
      else
        match jwt.decode now (py.drop 7 header)
                         (jwt_secret_key settings) (jwt_algorithm settings) with
        | inl ExpiredSignatureError => inl (unauthenticated "Token expired")
        | inl _ => inl (unauthenticated "Invalid token")
        | inr payload =>
            match payload !! "sub" with
            | Some (JStr s) =>
                match py.int s with
                | Some user_id => inr user_id
                | None => inl (unauthenticated "Invalid token")
                end
            | _ => inl (unauthenticated "Invalid token")
            end
        end
  end.

End auth.
End auth.

(** A small stand-in for the JWT library, used to run the model on concrete
    tokens: the token is [sub.exp.signature] in clear, and the signature is
    the key, the algorithm name and the subject glued together. *)
Module plain_jwt.

Fixpoint split_dot (s : string) : option (string * string) :=
  match s with
  | EmptyString => None
  | String c s' =>
      if Ascii.eqb c "." then Some (EmptyString, s')
      else match split_dot s' with
           | Some (a, b) => Some (String c a, b)
           | None => None
           end
  end.

Definition field (payload : gmap string json) (k : string) : string :=
  match payload !! k with
  | Some (JStr s) => s
  | Some (JInt z) => py.str z
  | _ => ""
  end.

Definition serialize (j : jws) : string :=
  field (jws_payload j) "sub" +:+ "." +:+ field (jws_payload j) "exp"
    +:+ "." +:+ jws_signature j.

Definition parse (s : string) : option jws :=
  match split_dot s with
  | Some (sub, rest) =>
      match split_dot rest with
      | Some (e, sig) =>
          match py.int e with
          | Some e' =>
              Some {| jws_payload :=
                        <["sub" := JStr sub]>
                          (<["type" := JStr "access"]> (<["exp" := JInt e']> ∅));
                      jws_signature := sig |}
          | None => None
          end
      | None => None
      end
  | None => None
  end.

Definition lib : PyJWT :=
  {| jws_sign := fun alg key payload => alg +:+ ":" +:+ key +:+ ":" +:+ field payload "sub";
     jws_serialize := serialize;
     jws_parse := parse |}.

Definition settings : Settings :=
  {| jwt_secret_key := "test-secret";
     jwt_algorithm := "HS256";
     mcp_audience := "mcp://mytaskly-mcp-server";
     fastapi_base_url := "http://localhost:8080";
     fastapi_api_key := "test-api-key";
     mcp_server_name := "MyTaskly MCP Server";
     mcp_server_version := "0.1.0";
     log_level := "INFO" |}.

End plain_jwt.

(** ** Formatting rules ([src/formatters.py]) *)

Module formatters.

(** A raw task record as the backend sends it: the keys [task_id], [title],
    [description], [start_time], [end_time], [priority], [status] and
    [category]; [None] is JSON's null. *)
Record task := {
  task_id : Z;
  title : string;
  description : option string;
  start_time : option string;
  end_time : option string;
  priority : string;
  status : string;
  category : string;
}.

(** *** Dates *)

Record datetime := { year : Z; month : Z; day : Z; hour : Z; minute : Z }.

Definition digit (c : ascii) : option Z :=
  let n := Z.of_N (N_of_ascii c) in
  if (48 <=? n)%Z && (n <=? 57)%Z then Some (n - 48) else None.

Definition number (cs : list ascii) : option Z :=
  fold_left (fun acc c => a ← acc; d ← digit c; Some (10 * a + d)) cs (Some 0).

Definition is_leap (y : Z) : bool :=
  ((y mod 4 =? 0)%Z && negb (y mod 100 =? 0)%Z) || (y mod 400 =? 0)%Z.

Definition days_in_month (y m : Z) : Z :=
  if (m =? 2)%Z then (if is_leap y then 29 else 28)
  else if (m =? 4)%Z || (m =? 6)%Z || (m =? 9)%Z || (m =? 11)%Z then 30
  else 31.

(** Modelled from the spec: [src/formatters.py] is not among the sources.
    The reading of an ISO-8601 timestamp [YYYY-MM-DDTHH:MM], followed by
    anything (seconds, fraction, offset); [None] when the text is not one. *)
Definition fromisoformat (s : string) : option datetime :=
  match list_ascii_of_string s with
  | y1 :: y2 :: y3 :: y4 :: s1 :: m1 :: m2 :: s2 :: d1 :: d2 :: t
      :: h1 :: h2 :: s3 :: n1 :: n2 :: _ =>
      if Ascii.eqb s1 "-" && Ascii.eqb s2 "-" && Ascii.eqb t "T" && Ascii.eqb s3 ":"
      then
        y ← number [y1; y2; y3; y4];
        m ← number [m1; m2];
        d ← number [d1; d2];
        h ← number [h1; h2];
        n ← number [n1; n2];
        if (1 <=? y)%Z && (1 <=? m)%Z && (m <=? 12)%Z
           && (1 <=? d)%Z && (d <=? days_in_month y m)%Z
           && (h <=? 23)%Z && (n <=? 59)%Z
        then Some {| year := y; month := m; day := d; hour := h; minute := n |}
        else None
      else None
  | _ => None
  end.

(** [dt.weekday()]: Monday is 0, Sunday is 6. *)
Definition weekday (dt : datetime) : nat :=
  let t := [0; 3; 2; 5; 0; 3; 5; 1; 4; 6; 2; 4]%Z in
  let y := if (month dt <? 3)%Z then year dt - 1 else year dt in
  let sunday0 :=
    (y + y / 4 - y / 100 + y / 400
     + nth (Z.to_nat (month dt - 1)) t 0 + day dt) mod 7 in
  Z.to_nat ((sunday0 + 6) mod 7).

Definition giorni : list string :=
  ["Lunedì"; "Martedì"; "Mercoledì"; "Giovedì"; "Venerdì"; "Sabato"; "Domenica"].

Definition mesi : list string :=
  ["gennaio"; "febbraio"; "marzo"; "aprile"; "maggio"; "giugno"; "luglio";
   "agosto"; "settembre"; "ottobre"; "novembre"; "dicembre"].

(** [f"{n:02d}"] *)
Definition pad2 (n : Z) : string :=
  if (n <? 10)%Z then "0" +:+ py.str n else py.str n.

(** Modelled from the spec: [src/formatters.py] is not among the sources,
    only its tests and its caller are. An ISO-8601 timestamp (or absence)
    maps to a localized Weekday D Month, HH:MM string; empty or absent
    input maps to the empty string; malformed input falls back to the raw
    string. The shape of the result is the one shown in the docstring of
    [get_tasks]. *)
Definition format_date_for_mobile (date_str : option string) : string :=
  match date_str with
  | None => ""
  | Some s =>
      if String.eqb s "" then ""
      else
        match fromisoformat s with
        | Some dt =>
            nth (weekday dt) giorni "" +:+ " " +:+ py.str (day dt) +:+ " "
              +:+ nth (Z.to_nat (month dt - 1)) mesi "" +:+ ", "
              +:+ pad2 (hour dt) +:+ ":" +:+ pad2 (minute dt)
        | None => s
        end
  end.

(** *** Priorities *)

(** Modelled from the spec: [src/formatters.py] is not among the sources.
    Priority level to emoji, from a closed table; unrecognised levels map
    to the empty emoji. The entries are those of [tests/test_formatters.py]. *)
Definition get_priority_emoji (priority : string) : string :=
  if String.eqb priority "Alta" then "⚡" else "".

(** *** Category colours *)

(** What may differ between two runs of the interpreter and that a
    function could consult: the seed of the built-in string hash and the
    state of the random generator. *)
Record process := { hash_seed : N; random_state : N }.

(** Modelled from the spec: [src/formatters.py] is not among the sources.
    The fixed lookup table of the known categories, with the entries that
    the tests and the docstring of [get_tasks] give. *)
Definition category_colors : list (string * string) :=
  [("Lavoro", "#3B82F6"); ("Personale", "#8B5CF6"); ("Cibo", "#EF4444")].

Fixpoint lookup_color (name : string) (table : list (string * string)) : option string :=
  match table with
  | [] => None
  | (k, v) :: table' => if String.eqb k name then Some v else lookup_color name table'
  end.

Section category_color.
(** The pure hash of a name and the palette it indexes, whichever they
    are in [src/formatters.py]. *)
Context (name_hash : string -> N) (palette : list string).

(** Modelled from the spec: [src/formatters.py] is not among the sources.
    Category name to colour from a fixed lookup table for known
    categories; for unknown names, a stable colour derived from the name
    by a pure hash-to-palette function, not randomness. The function
    runs in a process, and consults nothing of it. *)
Definition get_category_color (run : process) (category_name : string) : string :=
  match lookup_color category_name category_colors with
  | Some color => color
  | None =>
      nth (N.to_nat (name_hash category_name mod N.of_nat (length palette))) palette ""
  end.

(** *** The task list *)

(** The UI task view: the fields the properties below speak of. *)
Record ui_task := {
  id : Z;
  ui_title : string;
  endTime : option string;
  endTimeFormatted : string;
  ui_category : string;
  categoryColor : string;
  ui_priority : string;
  priorityEmoji : string;
  ui_status : string;
}.

Record summary := {
  total : nat;
  pending : nat;
  completed : nat;
  high_priority : nat;
}.

Record task_list := {
  type : string;
  tasks : list ui_task;
  task_summary : summary;
}.

(** Modelled from the spec: [src/formatters.py] is not among the sources.
    The view of one task adds the localized date string, the priority
    emoji and the category colour to the raw record. *)
Definition format_task (run : process) (t : task) : ui_task :=
  {| id := task_id t;
     ui_title := title t;
     endTime := end_time t;
     endTimeFormatted := format_date_for_mobile (end_time t);
     ui_category := category t;
     categoryColor := get_category_color run (category t);
     ui_priority := priority t;
     priorityEmoji := get_priority_emoji (priority t);
     ui_status := status t |}.

(** Modelled from the spec: [src/formatters.py] is not among the sources.
    One step of the single pass over the list; pending is the status
    In sospeso and high priority is the priority Alta, as in the tests and
    the docstring of [get_tasks]. *)
Definition count_task (acc : summary) (t : task) : summary :=
  {| total := S (total acc);
     pending :=
       if String.eqb (status t) "In sospeso" then S (pending acc) else pending acc;
     completed :=
       if String.eqb (status t) "Completato" then S (completed acc) else completed acc;
     high_priority :=
       if String.eqb (priority t) "Alta" then S (high_priority acc)
       else high_priority acc |}.

(** Modelled from the spec: [src/formatters.py] is not among the sources.
    Summary statistics: total count, pending count, completed count,
    high-priority count, in a single pass over the input list. *)
Definition summarize (raw : list task) : summary :=
  fold_left count_task raw
    {| total := 0; pending := 0; completed := 0; high_priority := 0 |}.

(** Modelled from the spec: [src/formatters.py] is not among the sources.
    Given a raw task list, the formatted tasks and the summary; the
    columns, the voice summary and the UI hints are left out. *)
Definition format_tasks_for_ui (run : process) (raw : list task) : task_list :=
  {| type := "task_list";
     tasks := map (format_task run) raw;
     task_summary := summarize raw |}.

End category_color.

End formatters.

(** ** Effects: one request handler talking to the backend

    A coroutine of the program is a computation that reads the world (the
    clock and the behaviour of the network), extends the trace of what it
    did to the backend client, and either returns or raises. Coroutines
    are awaited one after the other, so [await] is [mbind]. *)

Inductive http_method := GET | POST.

Record http_request := {
  req_method : http_method;
  req_url : string;
  req_headers : gmap string string;
  req_json : option json;
  req_timeout : Z;                     (* seconds *)
}.

(** What comes back from the backend: [resp_body] is [None] when the body is
    not a JSON document. *)
Record http_response := { resp_status : Z; resp_body : option json }.

(** The request either fails in transport (httpx raises, with a message) or
    a response arrives. *)
Inductive http_outcome :=
| Fails (message : string)
| Responds (r : http_response).

Record world := {
  now : Z;                                          (* seconds since the epoch *)
  transport : http_request -> http_outcome;         (* the network and the backend *)
  status_error_message : http_request -> Z -> string;  (* httpx's text for a bad status *)
}.

(** The methods of the backend client. *)
Inductive client_method := m_get_tasks | m_get_categories | m_create_note | m_health_check.

(** The trace is what a mock of the client and of the network would
    record. *)
Inductive event :=
| ClientCall (m : client_method)      (* a method of [fastapi_client] was called *)
| HttpSend (r : http_request).        (* a request left for the backend *)

Definition io (A : Type) : Type := world -> list event -> (exn + A) * list event.

#[export] Instance io_ret : MRet io := fun A x _ tr => (inr x, tr).

#[export] Instance io_bind : MBind io := fun A B f m w tr =>
  match m w tr with
  | (inl e, tr') => (inl e, tr')
  | (inr x, tr') => f x w tr'
  end.

(** A pure computation that may raise, run inside a coroutine. *)
Definition lift {A} (r : exn + A) : io A := fun _ tr => (r, tr).

(** [try: body / except Exception as e: handler(e)] *)
Definition try_except {A} (body : io A) (handler : exn -> io A) : io A := fun w tr =>
  match body w tr with
  | (inl e, tr') => handler e w tr'
  | (inr x, tr') => (inr x, tr')
  end.

Definition emit (e : event) : io unit := fun _ tr => (inr tt, (tr ++ [e])%list).

(** [datetime.now(timezone.utc)], in whole seconds *)
Definition clock : io Z := fun w tr => (inr (now w), tr).

(** [await client.get(...)] and [await client.post(...)] *)
Definition send (r : http_request) : io http_response := fun w tr =>
  match transport w r with
  | Fails message => (inl (RequestError message), (tr ++ [HttpSend r])%list)
  | Responds resp => (inr resp, (tr ++ [HttpSend r])%list)
  end.

(** [response.is_success] *)
Definition is_success (status : Z) : bool := (200 <=? status)%Z && (status <=? 299)%Z.

(** [response.raise_for_status()] *)
Definition raise_for_status (r : http_request) (resp : http_response) : io unit := fun w tr =>
  if is_success (resp_status resp) then (inr tt, tr)
  else (inl (HTTPStatusError (status_error_message w r (resp_status resp))), tr).

(** [response.json()] *)
Definition response_json (resp : http_response) : exn + json :=
  match resp_body resp with
  | Some j => inr j
  | None => inl (JSONDecodeError "Expecting value: line 1 column 1 (char 0)")
  end.

(** [obj[key]] on a decoded JSON value *)
Definition getitem (obj : json) (key : string) : exn + json :=
  match obj with
  | JObj o => match o !! key with Some v => inr v | None => inl (KeyError key) end
  | JArr _ => inl (TypeError "list indices must be integers or slices, not str")
  | JStr _ => inl (TypeError "string indices must be integers")
  | _ => inl (TypeError "object is not subscriptable")
  end.

(** Number of code points of a UTF-8 string: the bytes that are not
    continuation bytes. *)
Fixpoint len_str (s : string) : nat :=
  match s with
  | EmptyString => O
  | String (Ascii _ _ _ _ _ _ b6 b7) s' =>
      if b7 && negb b6 then len_str s' else S (len_str s')
  end.

(** [len(obj)] on a decoded JSON value *)
Definition len (obj : json) : exn + Z :=
  match obj with
  | JArr l => inr (Z.of_nat (length l))
  | JObj o => inr (Z.of_nat (size o))
  | JStr s => inr (Z.of_nat (len_str s))
  | _ => inl (TypeError "object has no len()")
  end.

(** ** Backend client ([src/client.py]) *)

Module FastAPIClient.
Section FastAPIClient.
Context `{PyJWT}.

Record t := {
  base_url : string;
  api_key : string;
  headers : gmap string string;
}.

Definition __init__ (settings : Settings) : t :=
  {| base_url := fastapi_base_url settings;
     api_key := fastapi_api_key settings;
     headers := <["X-API-Key" := fastapi_api_key settings]>
                  (<["Content-Type" := "application/json"]> ∅) |}.

(** The [httpx.AsyncClient] that this method opens sends nothing. *)
Definition _get_user_token (self : t) (user_id : Z) : io string :=
  let username := py.str user_id in
  now ← clock;
  let payload : gmap string json :=
    <["sub" := JStr username]>
      (<["type" := JStr "access"]>
         (<["exp" := JInt (now + 30 * 60)]> ∅)) in
  let secret_key := "349878uoti34h80943iotrhf-83490ewofridsh3t4iner" in
  let token := jwt.encode payload secret_key "HS256" in
  mret token.

(** The [headers] dictionary that each data method builds. *)
Definition request_headers (self : t) (token : string) : gmap string string :=
  <["Content-Type" := "application/json"]>
    (<["X-API-Key" := api_key self]>
       (<["Authorization" := "Bearer " +:+ token]> ∅)).

Definition get_tasks (self : t) (user_id : Z) : io json :=
  _ ← emit (ClientCall m_get_tasks);
  token ← _get_user_token self user_id;
  let headers := request_headers self token in
  let request := {| req_method := GET; req_url := base_url self +:+ "/tasks/";
                    req_headers := headers; req_json := None; req_timeout := 30 |} in
  response ← send request;
  _ ← raise_for_status request response;
  lift (response_json response).

Definition get_categories (self : t) (user_id : Z) : io json :=
  _ ← emit (ClientCall m_get_categories);
  token ← _get_user_token self user_id;
  let headers := request_headers self token in
  let request := {| req_method := GET; req_url := base_url self +:+ "/categories/";
                    req_headers := headers; req_json := None; req_timeout := 30 |} in
  response ← send request;
  _ ← raise_for_status request response;
  lift (response_json response).

Definition create_note (self : t) (user_id : Z) (title : string)
    (position_x position_y color : option string) : io (gmap string json) :=
  let position_x := default "0" position_x in
  let position_y := default "0" position_y in
  let color := default "#FFEB3B" color in
  _ ← emit (ClientCall m_create_note);
  token ← _get_user_token self user_id;
  let headers := request_headers self token in
  let body : gmap string json :=
    <["user_id" := JInt user_id]>
      (<["title" := JStr title]>
         (<["position_x" := JStr position_x]>
            (<["position_y" := JStr position_y]>
               (<["color" := JStr color]> ∅)))) in
  let request := {| req_method := POST; req_url := base_url self +:+ "/notes";
                    req_headers := headers; req_json := Some (JObj body);
                    req_timeout := 30 |} in
  response ← send request;
  _ ← raise_for_status request response;
  result ← lift (response_json response);
  note_id ← lift (getitem result "note_id");
  mret (<["note_id" := note_id]>
          (<["title" := JStr title]>
             (<["color" := JStr color]>
                (<["position_x" := JStr position_x]>
                   (<["position_y" := JStr position_y]>
                      (<["message" := JStr "[OK] Nota creata con successo"]> ∅)))))).

Definition health_check (self : t) : io (gmap string json) :=
  _ ← emit (ClientCall m_health_check);
  let request := {| req_method := GET; req_url := base_url self +:+ "/health";
                    req_headers := ∅; req_json := None; req_timeout := 10 |} in
  try_except
    (response ← send request;
     mret (<["status" := JStr "healthy"]>
             (<["code" := JInt (resp_status response)]> ∅)))
    (fun e =>
       mret (<["status" := JStr "unhealthy"]>
               (<["error" := JStr (str_exn e)]> ∅))).

End FastAPIClient.
End FastAPIClient.

(** ** Tool façade ([src/server.py]) *)

Module server.
Section server.
Context `{PyJWT}.
(** [src/auth.py] and [src/formatters.py] are not among the sources: the
    façade is modelled over any verifier and any formatter. *)
Context (verify_jwt_token : option string -> exn + Z).
Context (format_tasks_for_ui : json -> exn + gmap string json).
Context (settings : Settings).

(** the global client instance *)
Definition fastapi_client : FastAPIClient.t := FastAPIClient.__init__ settings.

Definition get_authenticated_user_id (authorization : option string) : io Z :=
  lift (verify_jwt_token authorization).

Definition get_tasks (authorization : option string) : io (gmap string json) :=
  user_id ← lift (verify_jwt_token authorization);
  tasks ← FastAPIClient.get_tasks fastapi_client user_id;
  formatted_response ← lift (format_tasks_for_ui tasks);
  mret formatted_response.

Definition get_categories (authorization : option string) : io (gmap string json) :=
  user_id ← lift (verify_jwt_token authorization);
  categories ← FastAPIClient.get_categories fastapi_client user_id;
  total ← lift (len categories);
  mret (<["categories" := categories]> (<["total" := JInt total]> ∅)).

Definition create_note (authorization : option string) (title : string)
    (position_x position_y color : option string) : io (gmap string json) :=
  let position_x := default "0" position_x in
  let position_y := default "0" position_y in
  let color := default "#FFEB3B" color in
  user_id ← lift (verify_jwt_token authorization);
  note ← FastAPIClient.create_note fastapi_client user_id title
           (Some position_x) (Some position_y) (Some color);
  mret note.

Definition health_check : io (gmap string json) :=
  fastapi_health ← FastAPIClient.health_check fastapi_client;
  mret (<["mcp_server" := JStr "healthy"]>
          (<["fastapi_server" := default (JStr "unknown") (fastapi_health !! "status")]>
             (<["fastapi_url" := JStr (fastapi_base_url settings)]>
                (<["fastapi_details" := JObj fastapi_health]> ∅)))).

End server.
End server.

(** ** HTTP adapter ([src/http_server.py]) *)

Module http_server.
Section http_server.
Context `{PyJWT}.
Context (verify_jwt_token : option string -> exn + Z).
Context (format_tasks_for_ui : json -> exn + gmap string json).
Context (settings : Settings).

(** The request model, with the defaults of its fields: [None] stands for
    a field the body leaves out. *)
Record CreateNoteRequest := {
  title : string;
  position_x : string;
  position_y : string;
  color : string;
}.

Definition CreateNoteRequest__init__ (title : string)
    (position_x position_y color : option string) : CreateNoteRequest :=
  {| title := title;
     position_x := default "0" position_x;
     position_y := default "0" position_y;
     color := default "#FFEB3B" color |}.

Record JSONResponse := {
  status_code : Z;
  content : json;
  response_headers : option (list (string * string));
}.

(** [GET /health] *)
Definition health : io (gmap string json) := server.health_check settings.

(** [POST /mcp/get_tasks] *)
Definition http_get_tasks (authorization : option string) : io (gmap string json) :=
  server.get_tasks verify_jwt_token format_tasks_for_ui settings authorization.

(** [POST /mcp/get_categories] *)
Definition http_get_categories (authorization : option string) : io (gmap string json) :=
  server.get_categories verify_jwt_token settings authorization.

(** [POST /mcp/create_note] *)
Definition http_create_note (request : CreateNoteRequest)
    (authorization : option string) : io (gmap string json) :=
  server.create_note verify_jwt_token settings authorization
    (title request) (Some (position_x request)) (Some (position_y request))
    (Some (color request)).

(** [@app.exception_handler(HTTPException)] *)
Definition http_exception_handler (exc_status_code : Z) (exc_detail : string)
    (exc_headers : option (list (string * string))) : JSONResponse :=
  {| status_code := exc_status_code;
     content := JObj (<["detail" := JStr exc_detail]>
                        (<["error_code" := JStr ("HTTP_" +:+ py.str exc_status_code)]> ∅));
     response_headers := exc_headers |}.

(** [@app.exception_handler(Exception)]; its two [print]s go to the
    server's console and are no part of the response. *)
Definition general_exception_handler (exc : exn) : JSONResponse :=
  {| status_code := 500;
     content := JObj (<["detail" := JStr ("Internal server error: " +:+ str_exn exc)]>
                        (<["error_code" := JStr "INTERNAL_ERROR"]> ∅));
     response_headers := None |}.

(** What the application answers for a route: the framework serialises the
    returned dictionary with status 200, hands an [HTTPException] to the
    handler registered for it, and any other exception to the general
    handler. *)
Definition serve (route : io (gmap string json)) (w : world) (tr : list event)
    : JSONResponse * list event :=
  match route w tr with
  | (inr result, tr') =>
      ({| status_code := 200; content := JObj result; response_headers := None |}, tr')
  | (inl (HTTPException c d h), tr') => (http_exception_handler c d h, tr')
  | (inl exc, tr') => (general_exception_handler exc, tr')
  end.

(** The three protected routes. *)
Inductive protected_route :=
| route_get_tasks
| route_get_categories
| route_create_note (request : CreateNoteRequest).

Definition handle (r : protected_route) (authorization : option string)
    : io (gmap string json) :=
  match r with
  | route_get_tasks => http_get_tasks authorization
  | route_get_categories => http_get_categories authorization
  | route_create_note request => http_create_note request authorization
  end.

End http_server.
End http_server.

(** ** Sample inputs, used to run the model *)

Module sample.

(** The task of [tests/test_formatters.py]. *)
Definition test_task (description start_time : option string) : formatters.task :=
  {| formatters.task_id := 1;
     formatters.title := "Test Task";
     formatters.description := description;
     formatters.start_time := start_time;
     formatters.end_time := Some "2025-12-15T18:00:00+00:00";
     formatters.priority := "Alta";
     formatters.status := "In sospeso";
     formatters.category := "Lavoro" |}.

(** The instant of the sample run, a verifier and a formatter for it. *)
Definition clock0 : Z := 1765000000.

Definition verify : option string -> exn + Z :=
  auth.verify_jwt_token (H := plain_jwt.lib) plain_jwt.settings clock0.

Definition bearer (user_id ttl : Z) : option string :=
  Some ("Bearer " +:+
        auth.create_test_token (H := plain_jwt.lib) plain_jwt.settings clock0 user_id ttl).

Definition format (tasks : json) : exn + gmap string json :=
  inr (<["type" := JStr "task_list"]> (<["tasks" := tasks]> ∅)).

(** Three backends: unreachable, answering 503, and acknowledging. *)
Definition world_of (t : http_request -> http_outcome) : world :=
  {| now := clock0;
     transport := t;
     status_error_message := fun r status =>
       "Server error '" +:+ py.str status +:+ "' for url '" +:+ req_url r +:+ "'" |}.

Definition backend_down : world :=
  world_of (fun _ => Fails "All connection attempts failed").

Definition backend_503 : world :=
  world_of (fun _ => Responds {| resp_status := 503; resp_body := None |}).

Definition backend_ok : world :=
  world_of (fun _ =>
    Responds {| resp_status := 201;
                resp_body := Some (JObj (<["note_id" := JInt 456]>
                                           (<["status_code" := JInt 201]> ∅))) |}).

End sample.

(** ** Vocabulary of the properties *)

(** The Unauthenticated error is an [HTTPException] with status 401. *)
Definition is_unauthenticated (r : exn + Z) : Prop :=
  exists detail headers, r = inl (HTTPException 401 detail headers).

Definition is_high (t : formatters.task) : bool :=
  String.eqb (formatters.priority t) "Alta".

Section requests.
Context `{PyJWT} (settings : Settings).

(** The request that [FastAPIClient.health_check] sends. *)
Definition health_probe : http_request :=
  {| req_method := GET;
     req_url := fastapi_base_url settings +:+ "/health";
     req_headers := ∅;
     req_json := None;
     req_timeout := 10 |}.

(** The token that [_get_user_token] mints at instant [now]. *)
Definition service_token (user_id now : Z) : string :=
  jwt.encode
    (<["sub" := JStr (py.str user_id)]>
       (<["type" := JStr "access"]> (<["exp" := JInt (now + 30 * 60)]> ∅)))
    "349878uoti34h80943iotrhf-83490ewofridsh3t4iner" "HS256".

(** The request that a data method of the client sends for a user. *)
Definition backend_request (m : http_method) (path : string) (body : option json)
    (user_id now : Z) : http_request :=
  {| req_method := m;
     req_url := fastapi_base_url settings +:+ path;
     req_headers :=
       <["Content-Type" := "application/json"]>
         (<["X-API-Key" := fastapi_api_key settings]>
            (<["Authorization" := "Bearer " +:+ service_token user_id now]> ∅));
     req_json := body;
     req_timeout := 30 |}.

Definition note_body (user_id : Z) (title position_x position_y color : string) : json :=
  JObj (<["user_id" := JInt user_id]>
          (<["title" := JStr title]>
             (<["position_x" := JStr position_x]>
                (<["position_y" := JStr position_y]>
                   (<["color" := JStr color]> ∅))))).

(** What a data method makes of the backend's answer to its request [r]:
    the transport error, the status error, or the decoded body. *)
Definition fetched (w : world) (r : http_request) : exn + json :=
  match transport w r with
  | Fails message => inl (RequestError message)
  | Responds resp =>
      if is_success (resp_status resp) then response_json resp
      else inl (HTTPStatusError (status_error_message w r (resp_status resp)))
  end.

(** The note that [create_note] returns for a backend identifier. *)
Definition created_note (note_id : json) (title position_x position_y color : string)
    : gmap string json :=
  <["note_id" := note_id]>
    (<["title" := JStr title]>
       (<["color" := JStr color]>
          (<["position_x" := JStr position_x]>
             (<["position_y" := JStr position_y]>
                (<["message" := JStr "[OK] Nota creata con successo"]> ∅))))).

(** The uniform error envelope of the HTTP adapter. *)
Definition error_envelope (detail error_code : string) : json :=
  JObj (<["detail" := JStr detail]> (<["error_code" := JStr error_code]> ∅)).

End requests.

(** ** Vocabulary of the further properties *)

(** The key that [_get_user_token] signs with, and the payload it signs
    for a user at instant [now]. *)
Definition service_key : string := "349878uoti34h80943iotrhf-83490ewofridsh3t4iner".

Definition service_payload (user_id now : Z) : gmap string json :=
  <["sub" := JStr (py.str user_id)]>
    (<["type" := JStr "access"]> (<["exp" := JInt (now + 30 * 60)]> ∅)).

(** The decoded JSON values that have no length: null, booleans, numbers. *)
Definition unsized (j : json) : bool :=
  match j with
  | JNull | JBool _ | JInt _ => true
  | _ => false
  end.

(** The keys of a note body sent to the backend, and of a note returned. *)
Definition note_body_keys : gset string :=
  {[ "user_id"; "title"; "position_x"; "position_y"; "color" ]}.

Definition created_note_keys : gset string :=
  {[ "note_id"; "title"; "color"; "position_x"; "position_y"; "message" ]}.

(** More backends for the sample run: one that lists two categories, one
    that acknowledges a note without naming it, one that answers 200 with a
    body that is not JSON, and one that answers 200 with null. *)
Module sample_backends.

Definition two_categories : list json :=
  [JObj (<["category_id" := JInt 1]> (<["name" := JStr "Lavoro"]> ∅));
   JObj (<["category_id" := JInt 2]> (<["name" := JStr "Personale"]> ∅))].

Definition listing : world :=
  sample.world_of (fun _ =>
    Responds {| resp_status := 200; resp_body := Some (JArr two_categories) |}).

Definition nameless : world :=
  sample.world_of (fun _ =>
    Responds {| resp_status := 201;
                resp_body := Some (JObj (<["status_code" := JInt 201]> ∅)) |}).

Definition not_json : world :=
  sample.world_of (fun _ => Responds {| resp_status := 200; resp_body := None |}).

Definition null_body : world :=
  sample.world_of (fun _ => Responds {| resp_status := 200; resp_body := Some JNull |}).

End sample_backends.

(* ================================================================== *)
(** * Properties *)
(* ================================================================== *)

(** ** Python built-ins *)

Lemma to_int_not_nil (n : Z) :
  Z.to_int n <> Decimal.Pos Decimal.Nil /\ Z.to_int n <> Decimal.Neg Decimal.Nil.
Proof.
  destruct n; simpl; split; try discriminate;
    intros [= E]; exact (DecimalPos.Unsigned.to_uint_nonnil _ E).
Qed.

Lemma int_str (n : Z) : py.int (py.str n) = Some n.
Proof.
  unfold py.int, py.str.
  destruct (to_int_not_nil n) as [Hp Hn].
  rewrite NilZero.isi by assumption.
  simpl. f_equal. apply DecimalZ.of_to.
Qed.

Lemma startswith_app (p s : string) : py.startswith p (p +:+ s) = true.
Proof.
  induction p as [|a p IH]; simpl; [reflexivity|].
  now rewrite Ascii.eqb_refl.
Qed.

Lemma drop_app (p s : string) : py.drop (String.length p) (p +:+ s) = s.
Proof. induction p as [|a p IH]; simpl; auto. Qed.

(** ** Token codec *)

Section TokenCodec.
Context `{PyJWT} (settings : Settings).

Abbreviation key := (jwt_secret_key settings).
Abbreviation alg := (jwt_algorithm settings).

(** Decoding a token the library signed with the same key and reads back:
    only the expiry is left to decide. *)
Lemma decode_encode (now : Z) (payload : gmap string json) :
  jwt.reads_back (jwt.sign payload key alg) ->
  jwt.decode now (jwt.encode payload key alg) key alg =
    match payload !! "exp" with
    | None => inr payload
    | Some (JInt e) => if (e <=? now)%Z then inl ExpiredSignatureError else inr payload
    | Some _ => inl (DecodeError "Expiration Time claim (exp) must be an integer.")
    end.
Proof.
  intros Hrb. unfold jwt.decode, jwt.encode. rewrite Hrb. simpl.
  now rewrite String.eqb_refl.
Qed.

Lemma verify_bearer (now : Z) (token : string) :
  auth.verify_jwt_token settings now (Some ("Bearer " +:+ token)) =
    match jwt.decode now token key alg with
    | inl ExpiredSignatureError => inl (auth.unauthenticated "Token expired")
    | inl _ => inl (auth.unauthenticated "Invalid token")
    | inr payload =>
        match payload !! "sub" with
        | Some (JStr s) =>
            match py.int s with
            | Some user_id => inr user_id
            | None => inl (auth.unauthenticated "Invalid token")
            end
        | _ => inl (auth.unauthenticated "Invalid token")
        end
    end.
Proof. reflexivity. Qed.

Lemma verify_issued (issued_at now user_id ttl : Z) :
  jwt.reads_back (jwt.sign (auth.test_payload issued_at user_id ttl) key alg) ->
  auth.verify_jwt_token settings now
    (Some ("Bearer " +:+ auth.create_test_token settings issued_at user_id ttl)) =
    if (issued_at + ttl * 60 <=? now)%Z
    then inl (auth.unauthenticated "Token expired")
    else inr user_id.
Proof.
  intros Hrb. rewrite verify_bearer. unfold auth.create_test_token.
  rewrite (decode_encode now _ Hrb).
  change (auth.test_payload issued_at user_id ttl !! "exp")
    with (Some (JInt (issued_at + ttl * 60))).
  cbv beta iota.
  destruct (issued_at + ttl * 60 <=? now)%Z; [reflexivity|].
  change (auth.test_payload issued_at user_id ttl !! "sub")
    with (Some (JStr (py.str user_id))).
  cbv beta iota. now rewrite int_str.
Qed.

(** C1: for every user identifier and every positive TTL, verifying the
    header value made of the Bearer prefix and the issued token, at any
    instant before the expiry instant, succeeds and returns exactly the
    subject, as an integer. The JWT library is assumed to read back the
    token it wrote. *)
Theorem verify_create_test_token_roundtrip (issued_at now user_id ttl : Z) :
  jwt.reads_back (jwt.sign (auth.test_payload issued_at user_id ttl) key alg) ->
  0 < ttl ->
  now < issued_at + ttl * 60 ->
  auth.verify_jwt_token settings now
    (Some ("Bearer " +:+ auth.create_test_token settings issued_at user_id ttl)) =
    inr user_id.
Proof.
  intros Hrb _ Hlt. rewrite (verify_issued _ _ _ _ Hrb).
  destruct (Z.leb_spec (issued_at + ttl * 60) now); [lia | reflexivity].
Qed.

(** C2: verification fails with the Unauthenticated error (status 401) and
    yields no subject when the header is absent, when the header value
    does not start with the Bearer scheme prefix, when the token's
    signature does not validate, and when the token was issued with a
    TTL that is zero or negative. *)
Theorem verify_jwt_token_unauthenticated (now : Z) :
  is_unauthenticated (auth.verify_jwt_token settings now None)
  /\ (forall header : string,
        py.startswith "Bearer " header = false ->
        is_unauthenticated (auth.verify_jwt_token settings now (Some header)))
  /\ (forall (token : string) (j : jws),
        jws_parse token = Some j ->
        jws_signature j <> jws_sign alg key (jws_payload j) ->
        is_unauthenticated
          (auth.verify_jwt_token settings now (Some ("Bearer " +:+ token))))
  /\ (forall issued_at user_id ttl : Z,
        jwt.reads_back (jwt.sign (auth.test_payload issued_at user_id ttl) key alg) ->
        ttl <= 0 ->
        issued_at <= now ->
        is_unauthenticated
          (auth.verify_jwt_token settings now
             (Some ("Bearer " +:+ auth.create_test_token settings issued_at user_id ttl)))).
Proof.
  repeat split.
  - now eexists _, _.
  - intros header Hpre. unfold auth.verify_jwt_token. rewrite Hpre. simpl.
    now eexists _, _.
  - intros token j Hparse Hsig. rewrite verify_bearer.
    unfold jwt.decode. rewrite Hparse.
    destruct (String.eqb_spec (jws_signature j) (jws_sign alg key (jws_payload j)));
      [contradiction|]. simpl. now eexists _, _.
  - intros issued_at user_id ttl Hrb Httl Hle.
    rewrite (verify_issued _ _ _ _ Hrb).
    destruct (Z.leb_spec (issued_at + ttl * 60) now); [|lia].
    now eexists _, _.
Qed.

End TokenCodec.

(** A token for user 123 that lives 30 minutes, verified 100 seconds after
    it was issued. *)
Lemma verify_create_test_token_roundtrip_witness :
  auth.verify_jwt_token (H := plain_jwt.lib) plain_jwt.settings (sample.clock0 + 100)
    (sample.bearer 123 30) = inr 123.
Proof.
  apply (@verify_create_test_token_roundtrip plain_jwt.lib plain_jwt.settings
           sample.clock0 (sample.clock0 + 100) 123 30).
  - vm_compute. reflexivity.
  - lia.
  - unfold sample.clock0. lia.
Defined.

(** The four rejections on concrete headers: none, one without the scheme,
    a forged signature, and a token issued with a TTL of -1 minute. *)
Lemma verify_jwt_token_unauthenticated_witness :
  is_unauthenticated (sample.verify None)
  /\ is_unauthenticated (sample.verify (Some "InvalidFormat"))
  /\ is_unauthenticated (sample.verify (Some "Bearer 123.1765001800.forged"))
  /\ is_unauthenticated (sample.verify (sample.bearer 123 (-1))).
Proof.
  destruct (@verify_jwt_token_unauthenticated plain_jwt.lib plain_jwt.settings
              sample.clock0) as (Habsent & Hscheme & Hsig & Hexp).
  split; [exact Habsent|].
  split; [apply Hscheme; reflexivity|].
  split.
  - eapply (Hsig "123.1765001800.forged").
    + reflexivity.
    + intros E. vm_compute in E. discriminate E.
  - apply (Hexp sample.clock0 123 (-1)).
    + vm_compute. reflexivity.
    + lia.
    + lia.
Defined.

(** ** Formatting rules *)

Section Formatting.
Import formatters.
Context (name_hash : string -> N) (palette : list string).

Abbreviation format_all := (format_tasks_for_ui name_hash palette).

(** C4: the single task of the end-to-end scenario formats to one task view
    whose priority emoji is the high-voltage sign, whose category colour
    is #3B82F6 and whose formatted end time contains the Italian month
    name dicembre and 18:00; the summary has total 1 and high_priority 1. *)
Theorem format_tasks_for_ui_test_task
    (run : process) (description start_time : option string) :
  let result := format_all run [sample.test_task description start_time] in
  exists view : ui_task,
    tasks result = [view]
    /\ priorityEmoji view = "⚡"
    /\ categoryColor view = "#3B82F6"
    /\ py.contains "dicembre" (endTimeFormatted view) = true
    /\ py.contains "18:00" (endTimeFormatted view) = true
    /\ total (task_summary result) = 1%nat
    /\ high_priority (task_summary result) = 1%nat.
Proof.
  simpl. eexists. split; [reflexivity|].
  repeat split; vm_compute; reflexivity.
Qed.

(** The single pass adds to the counters it starts from. *)
Lemma fold_count_total (raw : list task) (acc : summary) :
  total (fold_left count_task raw acc) = (total acc + length raw)%nat.
Proof.
  revert acc. induction raw as [|t raw IH]; intros acc; simpl.
  - lia.
  - rewrite IH. simpl. lia.
Qed.

Lemma fold_count_high (raw : list task) (acc : summary) :
  high_priority (fold_left count_task raw acc) =
    (high_priority acc + length (List.filter is_high raw))%nat.
Proof.
  revert acc. induction raw as [|t raw IH]; intros acc; simpl.
  - lia.
  - rewrite IH. unfold is_high at 2. simpl.
    destruct (String.eqb (priority t) "Alta"); simpl; lia.
Qed.

(** A task is counted as pending or as completed, never as both. *)
Lemma count_task_bounded (acc : summary) (t : task) :
  (pending acc + completed acc <= total acc)%nat ->
  (pending (count_task acc t) + completed (count_task acc t)
     <= total (count_task acc t))%nat.
Proof.
  intros Hacc. unfold count_task. simpl.
  destruct (String.eqb_spec (status t) "In sospeso") as [E1|_];
    destruct (String.eqb_spec (status t) "Completato") as [E2|_];
    try lia.
  rewrite E1 in E2. discriminate E2.
Qed.

Lemma fold_count_bounded (raw : list task) (acc : summary) :
  (pending acc + completed acc <= total acc)%nat ->
  (pending (fold_left count_task raw acc) + completed (fold_left count_task raw acc)
     <= total (fold_left count_task raw acc))%nat.
Proof.
  revert acc. induction raw as [|t raw IH]; intros acc Hacc; simpl.
  - exact Hacc.
  - apply IH. now apply count_task_bounded.
Qed.

(** C5: for every task list, the summary's total is the length of the list,
    its high_priority is the number of tasks whose priority equals Alta,
    pending + completed is at most total, and high_priority is at most
    total. *)
Theorem summary_counts (run : process) (raw : list task) :
  let s := task_summary (format_all run raw) in
  total s = length raw
  /\ high_priority s = length (List.filter (fun t => String.eqb (priority t) "Alta") raw)
  /\ (pending s + completed s <= total s)%nat
  /\ (high_priority s <= total s)%nat.
Proof.
  simpl. unfold summarize.
  split; [now rewrite fold_count_total|].
  split; [now rewrite fold_count_high|].
  split; [apply fold_count_bounded; simpl; lia|].
  rewrite fold_count_total, fold_count_high. simpl.
  apply List.filter_length_le.
Qed.

End Formatting.

(** ** Backend client and tool façade *)

Lemma lookup2_first {V} (k1 k2 : string) (v1 v2 : V) :
  (<[k1 := v1]> (<[k2 := v2]> (∅ : gmap string V))) !! k1 = Some v1.
Proof. apply lookup_insert_eq. Qed.

Lemma lookup2_second {V} (k1 k2 : string) (v1 v2 : V) :
  k1 <> k2 ->
  (<[k1 := v1]> (<[k2 := v2]> (∅ : gmap string V))) !! k2 = Some v2.
Proof. intros Hne. rewrite lookup_insert_ne by exact Hne. apply lookup_insert_eq. Qed.

Section Facade.
Context `{PyJWT}.
Context (verify_jwt_token : option string -> exn + Z).
Context (format_tasks_for_ui : json -> exn + gmap string json).
Context (settings : Settings).

Abbreviation client := (server.fastapi_client settings).

Abbreviation health_probe := (health_probe settings).

(** C3: for each protected façade operation and every authorization value
    whose verification fails, the operation raises the verification's
    error and leaves the trace of backend-client calls as it was: no
    method of the client is called and no request is sent. *)
Theorem authentication_failure_short_circuits
    (authorization : option string) (e : exn) (w : world) (tr : list event) :
  verify_jwt_token authorization = inl e ->
  server.get_tasks verify_jwt_token format_tasks_for_ui settings authorization w tr
    = (inl e, tr)
  /\ server.get_categories verify_jwt_token settings authorization w tr = (inl e, tr)
  /\ (forall (title : string) (position_x position_y color : option string),
        server.create_note verify_jwt_token settings authorization
          title position_x position_y color w tr = (inl e, tr)).
Proof.
  intros Hfail.
  unfold server.get_tasks, server.get_categories, server.create_note.
  unfold mbind, io_bind, lift. rewrite Hfail. auto.
Qed.

(** What the probe's outcome makes of the health check. *)
Lemma health_check_run (w : world) (tr : list event) :
  FastAPIClient.health_check client w tr =
    (inr match transport w health_probe with
         | Fails message =>
             <["status" := JStr "unhealthy"]> (<["error" := JStr message]> ∅)
         | Responds resp =>
             <["status" := JStr "healthy"]> (<["code" := JInt (resp_status resp)]> ∅)
         end,
     (tr ++ [ClientCall m_health_check; HttpSend health_probe])%list).
Proof.
  unfold FastAPIClient.health_check, mbind, io_bind, emit, try_except, send, mret, io_ret.
  change (FastAPIClient.base_url client +:+ "/health")
    with (fastapi_base_url settings +:+ "/health").
  fold health_probe.
  rewrite <- app_assoc. simpl.
  destruct (transport w health_probe); reflexivity.
Qed.

(** C7: the client's health check never raises. Whatever the outcome of
    the HTTP probe, it returns a dictionary with a status; when the probe
    fails, the status is unhealthy and the dictionary carries the
    message of the underlying error. *)
Theorem health_check_never_raises (w : world) (tr : list event) :
  exists (result : gmap string json) (tr' : list event),
    FastAPIClient.health_check client w tr = (inr result, tr')
    /\ is_Some (result !! "status")
    /\ (forall message : string,
          transport w health_probe = Fails message ->
          result !! "status" = Some (JStr "unhealthy")
          /\ result !! "error" = Some (JStr message)).
Proof.
  rewrite health_check_run. eexists _, _. split; [reflexivity|].
  destruct (transport w health_probe) as [m|resp]; split.
  - rewrite lookup2_first. eauto.
  - intros message [= <-]. rewrite lookup2_first, lookup2_second by discriminate. auto.
  - rewrite lookup2_first. eauto.
  - intros message [=].
Qed.

(** C10: whenever the probe gets a response, whatever its status code, the
    client reports healthy (with the code recorded) and the façade reports
    the backend as healthy; unhealthy is reported only when the probe
    request itself raised. *)
Theorem health_check_ignores_status_code (w : world) (tr : list event) :
  (forall resp : http_response,
      transport w health_probe = Responds resp ->
      exists tr' details,
        FastAPIClient.health_check client w tr =
          (inr (<["status" := JStr "healthy"]>
                  (<["code" := JInt (resp_status resp)]> ∅)), tr')
        /\ server.health_check settings w tr = (inr details, tr')
        /\ details !! "fastapi_server" = Some (JStr "healthy"))
  /\ (forall (result : gmap string json) (tr' : list event),
        FastAPIClient.health_check client w tr = (inr result, tr') ->
        result !! "status" = Some (JStr "unhealthy") ->
        exists message : string, transport w health_probe = Fails message).
Proof.
  split.
  - intros resp Hresp. unfold server.health_check, mbind, io_bind.
    rewrite health_check_run, Hresp. eexists _, _.
    split; [reflexivity|]. split; [reflexivity|].
    rewrite lookup_insert_ne by discriminate.
    rewrite lookup_insert_eq. now rewrite lookup2_first.
  - intros result tr'. rewrite health_check_run.
    destruct (transport w health_probe) as [message|resp].
    + eauto.
    + intros [= <- _]. rewrite lookup2_first. intros [=].
Qed.

(** *** Runs of the data methods *)

Abbreviation request_for := (backend_request settings).

Lemma client_get_tasks_run (user_id : Z) (w : world) (tr : list event) :
  let r := request_for GET "/tasks/" None user_id (now w) in
  FastAPIClient.get_tasks client user_id w tr =
    (fetched w r, (tr ++ [ClientCall m_get_tasks; HttpSend r])%list).
Proof.
  intros r.
  unfold FastAPIClient.get_tasks, FastAPIClient._get_user_token, mbind, io_bind,
    emit, clock, send, raise_for_status, lift, mret, io_ret, fetched.
  change (FastAPIClient.request_headers _ _) with (req_headers r).
  change (FastAPIClient.base_url client +:+ "/tasks/") with (req_url r).
  change {| req_method := GET; req_url := req_url r; req_headers := req_headers r;
            req_json := None; req_timeout := 30 |} with r.
  rewrite <- app_assoc. simpl.
  destruct (transport w r) as [message|resp]; [reflexivity|].
  destruct (is_success (resp_status resp)); reflexivity.
Qed.

Lemma client_get_categories_run (user_id : Z) (w : world) (tr : list event) :
  let r := request_for GET "/categories/" None user_id (now w) in
  FastAPIClient.get_categories client user_id w tr =
    (fetched w r, (tr ++ [ClientCall m_get_categories; HttpSend r])%list).
Proof.
  intros r.
  unfold FastAPIClient.get_categories, FastAPIClient._get_user_token, mbind, io_bind,
    emit, clock, send, raise_for_status, lift, mret, io_ret, fetched.
  change (FastAPIClient.request_headers _ _) with (req_headers r).
  change (FastAPIClient.base_url client +:+ "/categories/") with (req_url r).
  change {| req_method := GET; req_url := req_url r; req_headers := req_headers r;
            req_json := None; req_timeout := 30 |} with r.
  rewrite <- app_assoc. simpl.
  destruct (transport w r) as [message|resp]; [reflexivity|].
  destruct (is_success (resp_status resp)); reflexivity.
Qed.

Lemma client_create_note_run (user_id : Z) (title : string)
    (position_x position_y color : option string) (w : world) (tr : list event) :
  let px := default "0" position_x in
  let py := default "0" position_y in
  let c := default "#FFEB3B" color in
  let r := request_for POST "/notes" (Some (note_body user_id title px py c))
             user_id (now w) in
  FastAPIClient.create_note client user_id title position_x position_y color w tr =
    (match fetched w r with
     | inl e => inl e
     | inr result =>
         match getitem result "note_id" with
         | inl e => inl e
         | inr note_id => inr (created_note note_id title px py c)
         end
     end,
     (tr ++ [ClientCall m_create_note; HttpSend r])%list).
Proof.
  intros px py c r.
  unfold FastAPIClient.create_note, FastAPIClient._get_user_token, mbind, io_bind,
    emit, clock, send, raise_for_status, lift, mret, io_ret, fetched.
  fold px py c.
  change (FastAPIClient.request_headers _ _) with (req_headers r).
  change (FastAPIClient.base_url client +:+ "/notes") with (req_url r).
  change (Some (JObj _)) with (req_json r).
  change {| req_method := POST; req_url := req_url r; req_headers := req_headers r;
            req_json := req_json r; req_timeout := 30 |} with r.
  rewrite <- app_assoc. simpl.
  destruct (transport w r) as [message|resp]; [reflexivity|].
  destruct (is_success (resp_status resp)); [|reflexivity].
  destruct (response_json resp) as [e|result]; [reflexivity|].
  destruct (getitem result "note_id"); reflexivity.
Qed.

(** *** The HTTP adapter *)

Import http_server.

Abbreviation handle_route := (handle verify_jwt_token format_tasks_for_ui settings).

(** With a verified user, a protected route calls one method of the client,
    which sends one request; an error in fetching its answer is the
    route's error. *)
Lemma route_fetches (route : protected_route) (authorization : option string)
    (user_id : Z) (w : world) (tr : list event) :
  verify_jwt_token authorization = inr user_id ->
  exists (m : client_method) (r : http_request),
    snd (handle_route route authorization w tr)
      = (tr ++ [ClientCall m; HttpSend r])%list
    /\ (forall e, fetched w r = inl e ->
          fst (handle_route route authorization w tr) = inl e).
Proof.
  intros Hok. destruct route as [| |request]; simpl.
  - unfold http_get_tasks, server.get_tasks, mbind, io_bind, lift.
    rewrite Hok, client_get_tasks_run. cbv zeta.
    eexists _, _. split.
    + destruct (fetched w _); [reflexivity|].
      destruct (format_tasks_for_ui _); reflexivity.
    + intros e ->. reflexivity.
  - unfold http_get_categories, server.get_categories, mbind, io_bind, lift.
    rewrite Hok, client_get_categories_run. cbv zeta.
    eexists _, _. split.
    + destruct (fetched w _) as [e|j]; [reflexivity|].
      destruct (len j); reflexivity.
    + intros e ->. reflexivity.
  - unfold http_create_note, server.create_note, mbind, io_bind, lift.
    rewrite Hok, client_create_note_run. cbv zeta.
    eexists _, _. split.
    + destruct (fetched w _) as [e|j]; [reflexivity|].
      destruct (getitem j "note_id"); reflexivity.
    + intros e ->. reflexivity.
Qed.

(** A route whose verification fails raises the verification's error at
    once. *)
Lemma route_rejects (route : protected_route) (authorization : option string)
    (e : exn) (w : world) (tr : list event) :
  verify_jwt_token authorization = inl e ->
  handle_route route authorization w tr = (inl e, tr).
Proof.
  intros Hfail. destruct route as [| |request]; simpl;
    unfold http_get_tasks, http_get_categories, http_create_note,
      server.get_tasks, server.get_categories, server.create_note,
      mbind, io_bind, lift;
    now rewrite Hfail.
Qed.

Lemma serve_raised (run : io (gmap string json)) (e : exn) (w : world)
    (tr tr' : list event) :
  run w tr = (inl e, tr') ->
  fst (serve run w tr) =
    match e with
    | HTTPException c d h => http_exception_handler c d h
    | _ => general_exception_handler e
    end.
Proof. intros Hrun. unfold serve. rewrite Hrun. now destruct e. Qed.

Lemma serve_unexpected (run : io (gmap string json)) (e : exn) (w : world)
    (tr tr' : list event) :
  run w tr = (inl e, tr') ->
  (forall c d h, e <> HTTPException c d h) ->
  status_code (fst (serve run w tr)) = 500
  /\ content (fst (serve run w tr))
     = error_envelope ("Internal server error: " +:+ str_exn e) "INTERNAL_ERROR".
Proof.
  intros Hrun Hne. rewrite (serve_raised _ _ _ _ _ Hrun).
  destruct e; try (split; reflexivity).
  now destruct (Hne status_code0 detail headers).
Qed.

(** C8: on every protected route, an authentication failure is answered
    with status 401; an upstream failure (the request fails in transport,
    or the backend answers with a status that is not 2xx) with status
    500, the detail carrying the upstream error's message; any other
    exception with status 500; and every error answer is an object with
    the two keys detail and error_code. *)
Theorem http_error_mapping (route : protected_route) (authorization : option string)
    (w : world) (tr : list event) :
  let run := handle_route route authorization in
  let answer := fst (serve run w tr) in
  (forall detail headers,
      verify_jwt_token authorization = inl (HTTPException 401 detail headers) ->
      status_code answer = 401
      /\ content answer = error_envelope detail "HTTP_401")
  /\ (forall user_id : Z,
        verify_jwt_token authorization = inr user_id ->
        exists (m : client_method) (r : http_request),
          snd (run w tr) = (tr ++ [ClientCall m; HttpSend r])%list
          /\ (forall message : string,
                transport w r = Fails message ->
                status_code answer = 500
                /\ content answer
                   = error_envelope ("Internal server error: " +:+ message)
                       "INTERNAL_ERROR")
          /\ (forall resp : http_response,
                transport w r = Responds resp ->
                is_success (resp_status resp) = false ->
                status_code answer = 500
                /\ content answer
                   = error_envelope
                       ("Internal server error: "
                          +:+ status_error_message w r (resp_status resp))
                       "INTERNAL_ERROR"))
  /\ (forall (e : exn) (tr' : list event),
        run w tr = (inl e, tr') ->
        (forall c d h, e <> HTTPException c d h) ->
        status_code answer = 500
        /\ content answer
           = error_envelope ("Internal server error: " +:+ str_exn e) "INTERNAL_ERROR")
  /\ (forall (e : exn) (tr' : list event),
        run w tr = (inl e, tr') ->
        exists detail error_code : string,
          content answer = error_envelope detail error_code).
Proof.
  intros run answer. subst answer.
  split; [|split; [|split]].
  - intros detail headers Hfail.
    assert (Hrun : run w tr = (inl (HTTPException 401 detail headers), tr))
      by now apply route_rejects.
    rewrite (serve_raised run _ w tr tr Hrun). split; reflexivity.
  - intros user_id Hok.
    destruct (route_fetches route authorization user_id w tr Hok) as (m & r & Htr & Herr).
    exists m, r. split; [exact Htr|]. split.
    + intros message Hfail.
      assert (Hrun : run w tr = (inl (RequestError message), snd (run w tr))).
      { rewrite <- (Herr (RequestError message)); [apply surjective_pairing|].
        unfold fetched. now rewrite Hfail. }
      now apply (serve_unexpected run _ w tr _ Hrun).
    + intros resp Hresp Hbad.
      set (e := HTTPStatusError (status_error_message w r (resp_status resp))).
      assert (Hrun : run w tr = (inl e, snd (run w tr))).
      { rewrite <- (Herr e); [apply surjective_pairing|].
        unfold fetched. now rewrite Hresp, Hbad. }
      now apply (serve_unexpected run _ w tr _ Hrun).
  - intros e tr' Hrun Hne. now apply (serve_unexpected run e w tr tr').
  - intros e tr' Hrun. rewrite (serve_raised run e w tr tr' Hrun).
    destruct e; eexists _, _; reflexivity.
Qed.

(** C9: an authenticated note creation that supplies only a title, through
    the tool or through the POST /mcp/create_note route, returns a note
    whose position_x and position_y are the string 0 and whose color is
    #FFEB3B; and it does return one whenever the backend answers the
    request with a 2xx status and a body that has a note_id. *)
Theorem create_note_defaults (authorization : option string) (title : string)
    (user_id : Z) (w : world) (tr : list event) :
  verify_jwt_token authorization = inr user_id ->
  let tool := server.create_note verify_jwt_token settings authorization title
                None None None in
  let route := http_create_note verify_jwt_token settings
                 (CreateNoteRequest__init__ title None None None) authorization in
  let r := request_for POST "/notes"
             (Some (note_body user_id title "0" "0" "#FFEB3B")) user_id (now w) in
  (forall (note : gmap string json) (tr' : list event),
      tool w tr = (inr note, tr') \/ route w tr = (inr note, tr') ->
      note !! "position_x" = Some (JStr "0")
      /\ note !! "position_y" = Some (JStr "0")
      /\ note !! "color" = Some (JStr "#FFEB3B"))
  /\ (forall (resp : http_response) (result note_id : json),
        transport w r = Responds resp ->
        is_success (resp_status resp) = true ->
        resp_body resp = Some result ->
        getitem result "note_id" = inr note_id ->
        let note := created_note note_id title "0" "0" "#FFEB3B" in
        let tr' := (tr ++ [ClientCall m_create_note; HttpSend r])%list in
        tool w tr = (inr note, tr') /\ route w tr = (inr note, tr')).
Proof.
  intros Hok tool route r.
  assert (Hroute : route w tr = tool w tr) by reflexivity.
  assert (Htool : tool w tr =
            (match fetched w r with
             | inl e => inl e
             | inr result =>
                 match getitem result "note_id" with
                 | inl e => inl e
                 | inr note_id => inr (created_note note_id title "0" "0" "#FFEB3B")
                 end
             end, (tr ++ [ClientCall m_create_note; HttpSend r])%list)).
  { subst tool. unfold server.create_note, mbind, io_bind, lift.
    rewrite Hok, client_create_note_run. cbv zeta. simpl default. fold r.
    destruct (fetched w r) as [e|result]; [reflexivity|].
    destruct (getitem result "note_id"); reflexivity. }
  split.
  - intros note tr' Hret.
    assert (Hrun : tool w tr = (inr note, tr')) by (destruct Hret; congruence).
    rewrite Htool in Hrun.
    destruct (fetched w r) as [e|result]; [discriminate Hrun|].
    destruct (getitem result "note_id") as [e|note_id]; [discriminate Hrun|].
    injection Hrun as <- _. unfold created_note. now simplify_map_eq.
  - intros resp result note_id Hresp Hgood Hbody Hid note tr'.
    rewrite Hroute, Htool. unfold fetched, response_json.
    now rewrite Hresp, Hgood, Hbody, Hid.
Qed.

End Facade.

(** ** The properties on the sample run *)

(** No header: the three operations raise the 401 and the trace stays empty. *)
Lemma authentication_failure_short_circuits_witness :
  let e := auth.unauthenticated "Missing Authorization header" in
  sample.verify None = inl e
  /\ server.get_tasks (H := plain_jwt.lib) sample.verify sample.format plain_jwt.settings
       None sample.backend_ok [] = (inl e, [])
  /\ server.get_categories (H := plain_jwt.lib) sample.verify plain_jwt.settings
       None sample.backend_ok [] = (inl e, [])
  /\ server.create_note (H := plain_jwt.lib) sample.verify plain_jwt.settings
       None "Comprare il latte" None None None sample.backend_ok [] = (inl e, []).
Proof.
  intros e.
  assert (Hfail : sample.verify None = inl e) by reflexivity.
  destruct (@authentication_failure_short_circuits plain_jwt.lib sample.verify
              sample.format plain_jwt.settings None e sample.backend_ok [] Hfail)
    as (Ht & Hc & Hn).
  exact (conj Hfail (conj Ht (conj Hc (Hn "Comprare il latte" None None None)))).
Defined.

(** The backend is unreachable: the health check returns unhealthy with the
    transport's message. *)
Lemma health_check_never_raises_witness :
  transport sample.backend_down (health_probe plain_jwt.settings)
    = Fails "All connection attempts failed"
  /\ exists result tr',
       FastAPIClient.health_check (server.fastapi_client plain_jwt.settings)
         sample.backend_down [] = (inr result, tr')
       /\ result !! "status" = Some (JStr "unhealthy")
       /\ result !! "error" = Some (JStr "All connection attempts failed").
Proof.
  assert (Hdown : transport sample.backend_down (health_probe plain_jwt.settings)
                  = Fails "All connection attempts failed") by reflexivity.
  split; [exact Hdown|].
  destruct (health_check_never_raises plain_jwt.settings sample.backend_down [])
    as (result & tr' & Hrun & _ & Hfail).
  exists result, tr'. split; [exact Hrun|]. exact (Hfail _ Hdown).
Defined.

(** The backend answers the probe with 503: it is reported healthy. *)
Lemma health_check_ignores_status_code_witness :
  transport sample.backend_503 (health_probe plain_jwt.settings)
    = Responds {| resp_status := 503; resp_body := None |}
  /\ exists tr' details,
       FastAPIClient.health_check (server.fastapi_client plain_jwt.settings)
         sample.backend_503 []
         = (inr (<["status" := JStr "healthy"]> (<["code" := JInt 503]> ∅)), tr')
       /\ server.health_check plain_jwt.settings sample.backend_503 [] = (inr details, tr')
       /\ details !! "fastapi_server" = Some (JStr "healthy").
Proof.
  assert (H503 : transport sample.backend_503 (health_probe plain_jwt.settings)
                 = Responds {| resp_status := 503; resp_body := None |}) by reflexivity.
  split; [exact H503|].
  destruct (health_check_ignores_status_code plain_jwt.settings sample.backend_503 [])
    as (Hresp & _).
  exact (Hresp _ H503).
Defined.

(** [POST /mcp/get_tasks]: without a header the answer is 401; with a valid
    token and the backend unreachable, or answering 503, it is 500. *)
Lemma http_error_mapping_witness :
  (let answer :=
     fst (http_server.serve
            (http_server.handle (H := plain_jwt.lib) sample.verify sample.format
               plain_jwt.settings http_server.route_get_tasks None)
            sample.backend_ok []) in
   http_server.status_code answer = 401
   /\ http_server.content answer
      = error_envelope "Missing Authorization header" "HTTP_401")
  /\ (let answer :=
        fst (http_server.serve
               (http_server.handle (H := plain_jwt.lib) sample.verify sample.format
                  plain_jwt.settings http_server.route_get_tasks (sample.bearer 7 30))
               sample.backend_down []) in
      http_server.status_code answer = 500
      /\ http_server.content answer
         = error_envelope "Internal server error: All connection attempts failed"
             "INTERNAL_ERROR")
  /\ (let answer :=
        fst (http_server.serve
               (http_server.handle (H := plain_jwt.lib) sample.verify sample.format
                  plain_jwt.settings http_server.route_get_tasks (sample.bearer 7 30))
               sample.backend_503 []) in
      http_server.status_code answer = 500
      /\ exists detail, http_server.content answer = error_envelope detail "INTERNAL_ERROR").
Proof.
  split; [|split].
  - destruct (@http_error_mapping plain_jwt.lib sample.verify sample.format
                plain_jwt.settings http_server.route_get_tasks None sample.backend_ok [])
      as (H401 & _).
    apply (H401 "Missing Authorization header" None). reflexivity.
  - destruct (@http_error_mapping plain_jwt.lib sample.verify sample.format
                plain_jwt.settings http_server.route_get_tasks (sample.bearer 7 30)
                sample.backend_down [])
      as (_ & Hup & _).
    destruct (Hup 7) as (m & r & _ & Hfail & _); [vm_compute; reflexivity|].
    apply Hfail. reflexivity.
  - destruct (@http_error_mapping plain_jwt.lib sample.verify sample.format
                plain_jwt.settings http_server.route_get_tasks (sample.bearer 7 30)
                sample.backend_503 [])
      as (_ & Hup & _).
    destruct (Hup 7) as (m & r & _ & _ & Hbad); [vm_compute; reflexivity|].
    destruct (Hbad {| resp_status := 503; resp_body := None |}) as (Hs & Hc);
      [reflexivity | reflexivity |].
    split; [exact Hs|]. eexists. exact Hc.
Defined.

(** A note with only a title, for user 7, acknowledged by the backend with
    the identifier 456. *)
Lemma create_note_defaults_witness :
  sample.verify (sample.bearer 7 30) = inr 7
  /\ exists tr',
       server.create_note (H := plain_jwt.lib) sample.verify plain_jwt.settings
         (sample.bearer 7 30) "Comprare il latte" None None None sample.backend_ok []
       = (inr (created_note (JInt 456) "Comprare il latte" "0" "0" "#FFEB3B"), tr')
       /\ http_server.http_create_note (H := plain_jwt.lib) sample.verify plain_jwt.settings
            (http_server.CreateNoteRequest__init__ "Comprare il latte" None None None)
            (sample.bearer 7 30) sample.backend_ok []
          = (inr (created_note (JInt 456) "Comprare il latte" "0" "0" "#FFEB3B"), tr').
Proof.
  assert (Hok : sample.verify (sample.bearer 7 30) = inr 7) by (vm_compute; reflexivity).
  split; [exact Hok|].
  destruct (@create_note_defaults plain_jwt.lib sample.verify plain_jwt.settings
              (sample.bearer 7 30) "Comprare il latte" 7 sample.backend_ok [] Hok)
    as (_ & Hret).
  eexists.
  eapply Hret; reflexivity.
Defined.

(* ================================================================== *)
(** * Further properties of the client, the façade and the adapter *)
(* ================================================================== *)

Section Coverage.
Context `{PyJWT}.
Context (verify_jwt_token : option string -> exn + Z).
Context (format_tasks_for_ui : json -> exn + gmap string json).
Context (settings : Settings).
Import http_server.

Abbreviation the_client := (server.fastapi_client settings).
Abbreviation request_to := (backend_request settings).
Abbreviation tasks_of := (server.get_tasks verify_jwt_token format_tasks_for_ui settings).
Abbreviation categories_of := (server.get_categories verify_jwt_token settings).
Abbreviation note_of := (server.create_note verify_jwt_token settings).

(** *** Runs of the façade for a verified user *)

Lemma get_user_token_run (user_id : Z) (w : world) (tr : list event) :
  FastAPIClient._get_user_token the_client user_id w tr
    = (inr (service_token user_id (now w)), tr).
Proof. reflexivity. Qed.

Lemma server_get_tasks_run (authorization : option string) (user_id : Z)
    (w : world) (tr : list event) :
  verify_jwt_token authorization = inr user_id ->
  let r := request_to GET "/tasks/" None user_id (now w) in
  tasks_of authorization w tr =
    (match fetched w r with
     | inl e => inl e
     | inr tasks => format_tasks_for_ui tasks
     end, (tr ++ [ClientCall m_get_tasks; HttpSend r])%list).
Proof.
  intros Hok r. unfold server.get_tasks, mbind, io_bind, lift.
  rewrite Hok, client_get_tasks_run. cbv zeta. fold r.
  destruct (fetched w r) as [e|tasks]; [reflexivity|].
  destruct (format_tasks_for_ui tasks); reflexivity.
Qed.

Lemma server_get_categories_run (authorization : option string) (user_id : Z)
    (w : world) (tr : list event) :
  verify_jwt_token authorization = inr user_id ->
  let r := request_to GET "/categories/" None user_id (now w) in
  categories_of authorization w tr =
    (match fetched w r with
     | inl e => inl e
     | inr categories =>
         match len categories with
         | inl e => inl e
         | inr total =>
             inr (<["categories" := categories]> (<["total" := JInt total]> ∅))
         end
     end, (tr ++ [ClientCall m_get_categories; HttpSend r])%list).
Proof.
  intros Hok r. unfold server.get_categories, mbind, io_bind, lift.
  rewrite Hok, client_get_categories_run. cbv zeta. fold r.
  destruct (fetched w r) as [e|categories]; [reflexivity|].
  destruct (len categories); reflexivity.
Qed.

Lemma server_create_note_run (authorization : option string) (user_id : Z)
    (title : string) (position_x position_y color : option string)
    (w : world) (tr : list event) :
  verify_jwt_token authorization = inr user_id ->
  let px := default "0" position_x in
  let py := default "0" position_y in
  let c := default "#FFEB3B" color in
  let r := request_to POST "/notes" (Some (note_body user_id title px py c))
             user_id (now w) in
  note_of authorization title position_x position_y color w tr =
    (match fetched w r with
     | inl e => inl e
     | inr result =>
         match getitem result "note_id" with
         | inl e => inl e
         | inr note_id => inr (created_note note_id title px py c)
         end
     end, (tr ++ [ClientCall m_create_note; HttpSend r])%list).
Proof.
  intros Hok px py c r. unfold server.create_note, mbind, io_bind, lift.
  rewrite Hok, client_create_note_run. cbv zeta. simpl default. fold px py c r.
  destruct (fetched w r) as [e|result]; [reflexivity|].
  destruct (getitem result "note_id"); reflexivity.
Qed.

Lemma backend_request_headers (m : http_method) (path : string) (body : option json)
    (user_id now : Z) :
  let r := request_to m path body user_id now in
  req_headers r !! "X-API-Key" = Some (fastapi_api_key settings)
  /\ req_headers r !! "Authorization" = Some ("Bearer " +:+ service_token user_id now)
  /\ req_headers r !! "Content-Type" = Some "application/json".
Proof. intros r. subst r. unfold backend_request. simpl. now simplify_map_eq. Qed.

Lemma fetched_ok (w : world) (r : http_request) (resp : http_response) (body : json) :
  transport w r = Responds resp ->
  is_success (resp_status resp) = true ->
  resp_body resp = Some body ->
  fetched w r = inr body.
Proof.
  intros Hresp Hgood Hbody. unfold fetched, response_json.
  now rewrite Hresp, Hgood, Hbody.
Qed.

Lemma fetched_inv (w : world) (r : http_request) (body : json) :
  fetched w r = inr body ->
  exists resp, transport w r = Responds resp
    /\ is_success (resp_status resp) = true
    /\ resp_body resp = Some body.
Proof.
  unfold fetched, response_json.
  destruct (transport w r) as [message|resp] eqn:Hresp; [discriminate|].
  destruct (is_success (resp_status resp)) eqn:Hgood; [|discriminate].
  destruct (resp_body resp) as [j|] eqn:Hbody; [|discriminate].
  intros [= <-]. now exists resp.
Qed.

(** X1: with a verified user, [get_tasks] and [get_categories] each call
    their method of the client once and send exactly one request, whatever
    the backend answers: a GET to /tasks/ (resp. /categories/) under the
    base URL, without a body, with a 30 second timeout, carrying the API
    key of the configuration and, as bearer, the token that
    [_get_user_token] mints for that user. *)
Theorem read_operations_send_one_request (authorization : option string)
    (user_id : Z) (w : world) (tr : list event) :
  verify_jwt_token authorization = inr user_id ->
  exists (token : string) (r_tasks r_categories : http_request),
    FastAPIClient._get_user_token the_client user_id w tr = (inr token, tr)
    /\ snd (tasks_of authorization w tr)
       = (tr ++ [ClientCall m_get_tasks; HttpSend r_tasks])%list
    /\ snd (categories_of authorization w tr)
       = (tr ++ [ClientCall m_get_categories; HttpSend r_categories])%list
    /\ req_url r_tasks = fastapi_base_url settings +:+ "/tasks/"
    /\ req_url r_categories = fastapi_base_url settings +:+ "/categories/"
    /\ (forall r : http_request,
          r = r_tasks \/ r = r_categories ->
          req_method r = GET
          /\ req_json r = None
          /\ req_timeout r = 30
          /\ req_headers r !! "X-API-Key" = Some (fastapi_api_key settings)
          /\ req_headers r !! "Authorization" = Some ("Bearer " +:+ token)
          /\ req_headers r !! "Content-Type" = Some "application/json").
Proof.
  intros Hok.
  exists (service_token user_id (now w)),
         (request_to GET "/tasks/" None user_id (now w)),
         (request_to GET "/categories/" None user_id (now w)).
  split; [apply get_user_token_run|].
  split; [now rewrite (server_get_tasks_run _ _ w tr Hok)|].
  split; [now rewrite (server_get_categories_run _ _ w tr Hok)|].
  split; [reflexivity|]. split; [reflexivity|].
  intros r [-> | ->];
    (split; [reflexivity|]; split; [reflexivity|]; split; [reflexivity|];
     apply backend_request_headers).
Qed.

(** X2: with a verified user, [create_note] sends exactly one request,
    whatever the backend answers: a POST to /notes with the API key and
    the minted bearer token, whose JSON body has exactly the keys user_id,
    title, position_x, position_y and color, with the verified user's
    identifier, the caller's title, and the caller's position and colour
    or their defaults. *)
Theorem create_note_sends_one_post (authorization : option string) (user_id : Z)
    (title : string) (position_x position_y color : option string)
    (w : world) (tr : list event) :
  verify_jwt_token authorization = inr user_id ->
  exists (token : string) (r : http_request) (body : gmap string json),
    FastAPIClient._get_user_token the_client user_id w tr = (inr token, tr)
    /\ snd (note_of authorization title position_x position_y color w tr)
       = (tr ++ [ClientCall m_create_note; HttpSend r])%list
    /\ req_method r = POST
    /\ req_url r = fastapi_base_url settings +:+ "/notes"
    /\ req_timeout r = 30
    /\ req_headers r !! "X-API-Key" = Some (fastapi_api_key settings)
    /\ req_headers r !! "Authorization" = Some ("Bearer " +:+ token)
    /\ req_json r = Some (JObj body)
    /\ dom body = note_body_keys
    /\ body !! "user_id" = Some (JInt user_id)
    /\ body !! "title" = Some (JStr title)
    /\ body !! "position_x" = Some (JStr (default "0" position_x))
    /\ body !! "position_y" = Some (JStr (default "0" position_y))
    /\ body !! "color" = Some (JStr (default "#FFEB3B" color)).
Proof.
  intros Hok.
  eexists (service_token user_id (now w)), _, _.
  split; [apply get_user_token_run|].
  split; [now rewrite (server_create_note_run _ _ _ _ _ _ w tr Hok)|].
  split; [reflexivity|]. split; [reflexivity|]. split; [reflexivity|].
  split; [apply backend_request_headers|].
  split; [apply backend_request_headers|].
  split; [reflexivity|].
  split.
  - unfold note_body_keys. rewrite !dom_insert_L, dom_empty_L. set_solver.
  - repeat split; now simplify_map_eq.
Qed.

(** *** The service token *)

Lemma decode_own_token (t : Z) (payload : gmap string json) (key alg : string) :
  jwt.reads_back (jwt.sign payload key alg) ->
  jwt.decode t (jwt.encode payload key alg) key alg =
    match payload !! "exp" with
    | None => inr payload
    | Some (JInt e) => if (e <=? t)%Z then inl ExpiredSignatureError else inr payload
    | Some _ => inl (DecodeError "Expiration Time claim (exp) must be an integer.")
    end.
Proof.
  intros Hrb. unfold jwt.decode, jwt.encode. rewrite Hrb. simpl.
  now rewrite String.eqb_refl.
Qed.

(** X3: [_get_user_token] never raises and sends nothing. The token it
    returns is signed with the key written in the method, not with the key
    of the configuration: decoded with that key under HS256 it is accepted
    at every instant before [now + 1800] seconds and refused as expired
    from then on; what it decodes to has the user's identifier in decimal
    as subject, the type access and the expiry [now + 1800]; and a key
    whose signature of that payload differs is refused. The JWT library is
    assumed to read back the token it wrote. *)
Theorem service_token_valid_for_thirty_minutes (user_id : Z) (w : world)
    (tr : list event) :
  jwt.reads_back (jwt.sign (service_payload user_id (now w)) service_key "HS256") ->
  exists token : string,
    FastAPIClient._get_user_token the_client user_id w tr = (inr token, tr)
    /\ (forall t : Z,
          t < now w + 1800 ->
          exists payload : gmap string json,
            jwt.decode t token service_key "HS256" = inr payload
            /\ (exists sub : string,
                  payload !! "sub" = Some (JStr sub) /\ py.int sub = Some user_id)
            /\ payload !! "type" = Some (JStr "access")
            /\ payload !! "exp" = Some (JInt (now w + 1800)))
    /\ (forall t : Z,
          now w + 1800 <= t ->
          jwt.decode t token service_key "HS256" = inl ExpiredSignatureError)
    /\ (forall (t : Z) (key : string),
          jws_sign "HS256" key (service_payload user_id (now w))
            <> jws_sign "HS256" service_key (service_payload user_id (now w)) ->
          jwt.decode t token key "HS256" = inl InvalidSignatureError).
Proof.
  intros Hrb. exists (service_token user_id (now w)).
  split; [apply get_user_token_run|].
  assert (Hdec : forall t,
             jwt.decode t (service_token user_id (now w)) service_key "HS256" =
               if (now w + 30 * 60 <=? t)%Z then inl ExpiredSignatureError
               else inr (service_payload user_id (now w))).
  { intros t. apply (decode_own_token t _ _ _ Hrb). }
  split; [|split].
  - intros t Ht. exists (service_payload user_id (now w)). rewrite Hdec.
    destruct (Z.leb_spec (now w + 30 * 60) t); [lia|].
    split; [reflexivity|]. split.
    + exists (py.str user_id). split; [reflexivity | apply int_str].
    + split; reflexivity.
  - intros t Ht. rewrite Hdec.
    destruct (Z.leb_spec (now w + 30 * 60) t); [reflexivity | lia].
  - intros t key Hkey.
    unfold jwt.decode, service_token, jwt.encode. fold (service_payload user_id (now w)).
    fold service_key. rewrite Hrb. simpl.
    destruct (String.eqb_spec
                (jws_sign "HS256" service_key (service_payload user_id (now w)))
                (jws_sign "HS256" key (service_payload user_id (now w)))) as [E|_];
      [now symmetry in E | reflexivity].
Qed.

(** *** When the operations return *)

Lemma is_success_range (status : Z) :
  is_success status = true <-> 200 <= status <= 299.
Proof. unfold is_success. rewrite andb_true_iff, !Z.leb_le. tauto. Qed.

Lemma serve_returned (run : io (gmap string json)) (result : gmap string json)
    (w : world) (tr tr' : list event) :
  run w tr = (inr result, tr') ->
  fst (serve run w tr)
    = {| status_code := 200; content := JObj result; response_headers := None |}.
Proof. intros Hrun. unfold serve. now rewrite Hrun. Qed.

(** X4: [get_tasks] returns a result exactly when the three steps all go
    through: the verifier accepts the header, the backend answers the one
    request with a status from 200 to 299 and a JSON body, and the
    formatter accepts that body; the result is then the formatter's. *)
Theorem get_tasks_returns_iff (authorization : option string) (w : world)
    (tr tr' : list event) (out : gmap string json) :
  tasks_of authorization w tr = (inr out, tr')
  <-> exists (user_id : Z) (resp : http_response) (tasks : json),
        let r := request_to GET "/tasks/" None user_id (now w) in
        verify_jwt_token authorization = inr user_id
        /\ transport w r = Responds resp
        /\ 200 <= resp_status resp <= 299
        /\ resp_body resp = Some tasks
        /\ format_tasks_for_ui tasks = inr out
        /\ tr' = (tr ++ [ClientCall m_get_tasks; HttpSend r])%list.
Proof.
  split.
  - destruct (verify_jwt_token authorization) as [e|user_id] eqn:Hv.
    + unfold server.get_tasks, mbind, io_bind, lift. rewrite Hv. discriminate.
    + rewrite (server_get_tasks_run _ _ w tr Hv). cbv zeta.
      destruct (fetched w _) as [e|tasks] eqn:Hf; [discriminate|].
      intros [= Hfmt <-].
      destruct (fetched_inv _ _ _ Hf) as (resp & Hresp & Hgood & Hbody).
      exists user_id, resp, tasks. cbv zeta.
      rewrite <- is_success_range. auto 10.
  - intros (user_id & resp & tasks & Hv & Hresp & Hgood & Hbody & Hfmt & ->).
    rewrite (server_get_tasks_run _ _ w tr Hv). cbv zeta.
    rewrite (fetched_ok _ _ _ _ Hresp (proj2 (is_success_range _) Hgood) Hbody).
    now rewrite Hfmt.
Qed.

(** X5: when the backend answers the categories request with a 2xx status
    and a JSON array, [get_categories] returns that array under categories
    and its length under total, and POST /mcp/get_categories answers 200
    with that object. *)
Theorem get_categories_counts (authorization : option string) (user_id : Z)
    (w : world) (tr : list event) (resp : http_response) (categories : list json) :
  verify_jwt_token authorization = inr user_id ->
  let r := request_to GET "/categories/" None user_id (now w) in
  transport w r = Responds resp ->
  is_success (resp_status resp) = true ->
  resp_body resp = Some (JArr categories) ->
  let result : gmap string json :=
    <["categories" := JArr categories]>
      (<["total" := JInt (Z.of_nat (length categories))]> ∅) in
  categories_of authorization w tr
    = (inr result, (tr ++ [ClientCall m_get_categories; HttpSend r])%list)
  /\ fst (serve (http_get_categories verify_jwt_token settings authorization) w tr)
     = {| status_code := 200; content := JObj result; response_headers := None |}.
Proof.
  intros Hv r Hresp Hgood Hbody result.
  assert (Hrun : categories_of authorization w tr
                 = (inr result, (tr ++ [ClientCall m_get_categories; HttpSend r])%list)).
  { rewrite (server_get_categories_run _ _ w tr Hv). cbv zeta. fold r.
    now rewrite (fetched_ok _ _ _ _ Hresp Hgood Hbody). }
  split; [exact Hrun|].
  now apply (serve_returned _ _ w tr _ Hrun).
Qed.

(** X6: when the backend answers the categories request with a 2xx status
    and a body that is JSON null, a boolean or a number, [get_categories]
    raises a TypeError from taking its length, after the request was
    sent, and POST /mcp/get_categories answers 500 with the error code
    INTERNAL_ERROR. *)
Theorem get_categories_unsized_body (authorization : option string) (user_id : Z)
    (w : world) (tr : list event) (resp : http_response) (body : json) :
  verify_jwt_token authorization = inr user_id ->
  let r := request_to GET "/categories/" None user_id (now w) in
  transport w r = Responds resp ->
  is_success (resp_status resp) = true ->
  resp_body resp = Some body ->
  unsized body = true ->
  exists message : string,
    categories_of authorization w tr
      = (inl (TypeError message), (tr ++ [ClientCall m_get_categories; HttpSend r])%list)
    /\ let answer :=
         fst (serve (http_get_categories verify_jwt_token settings authorization) w tr) in
       status_code answer = 500
       /\ content answer
          = error_envelope ("Internal server error: " +:+ message) "INTERNAL_ERROR".
Proof.
  intros Hv r Hresp Hgood Hbody Hunsized.
  assert (Hlen : exists message, len body = inl (TypeError message))
    by (destruct body; try discriminate Hunsized; eexists; reflexivity).
  destruct Hlen as (message & Hlen). exists message.
  assert (Hrun : categories_of authorization w tr
                 = (inl (TypeError message),
                    (tr ++ [ClientCall m_get_categories; HttpSend r])%list)).
  { rewrite (server_get_categories_run _ _ w tr Hv). cbv zeta. fold r.
    now rewrite (fetched_ok _ _ _ _ Hresp Hgood Hbody), Hlen. }
  split; [exact Hrun|].
  now apply (serve_unexpected _ _ w tr _ Hrun).
Qed.

(** X7: when the backend answers the note request with a 2xx status and a
    JSON object that has no note_id, [create_note] raises KeyError for
    note_id although the POST was sent, and POST /mcp/create_note answers
    500 with the detail Internal server error: 'note_id'. *)
Theorem create_note_missing_note_id (authorization : option string) (user_id : Z)
    (request : CreateNoteRequest) (w : world) (tr : list event)
    (resp : http_response) (result : gmap string json) :
  verify_jwt_token authorization = inr user_id ->
  let r := request_to POST "/notes"
             (Some (note_body user_id (title request) (position_x request)
                      (position_y request) (color request)))
             user_id (now w) in
  transport w r = Responds resp ->
  is_success (resp_status resp) = true ->
  resp_body resp = Some (JObj result) ->
  result !! "note_id" = None ->
  let route := http_create_note verify_jwt_token settings request authorization in
  route w tr = (inl (KeyError "note_id"),
                (tr ++ [ClientCall m_create_note; HttpSend r])%list)
  /\ status_code (fst (serve route w tr)) = 500
  /\ content (fst (serve route w tr))
     = error_envelope "Internal server error: 'note_id'" "INTERNAL_ERROR".
Proof.
  intros Hv r Hresp Hgood Hbody Hmiss route.
  assert (Hrun : route w tr = (inl (KeyError "note_id"),
                               (tr ++ [ClientCall m_create_note; HttpSend r])%list)).
  { subst route. unfold http_create_note.
    rewrite (server_create_note_run _ _ _ _ _ _ w tr Hv). cbv zeta. simpl default.
    fold r. rewrite (fetched_ok _ _ _ _ Hresp Hgood Hbody). simpl. now rewrite Hmiss. }
  split; [exact Hrun|].
  now apply (serve_unexpected _ _ w tr _ Hrun).
Qed.

(** X8: a note that [create_note] returns has exactly the keys note_id,
    title, color, position_x, position_y and message. Its note_id is the
    one in the body of the backend's answer; its title, colour and
    position are the caller's arguments (or their defaults), whatever else
    the backend's answer holds. *)
Theorem create_note_echoes_arguments (authorization : option string) (title : string)
    (position_x position_y color : option string) (w : world) (tr tr' : list event)
    (note : gmap string json) :
  note_of authorization title position_x position_y color w tr = (inr note, tr') ->
  dom note = created_note_keys
  /\ note !! "title" = Some (JStr title)
  /\ note !! "position_x" = Some (JStr (default "0" position_x))
  /\ note !! "position_y" = Some (JStr (default "0" position_y))
  /\ note !! "color" = Some (JStr (default "#FFEB3B" color))
  /\ note !! "message" = Some (JStr "[OK] Nota creata con successo")
  /\ exists (r : http_request) (resp : http_response) (result note_id : json),
       tr' = (tr ++ [ClientCall m_create_note; HttpSend r])%list
       /\ transport w r = Responds resp
       /\ resp_body resp = Some result
       /\ getitem result "note_id" = inr note_id
       /\ note !! "note_id" = Some note_id.
Proof.
  destruct (verify_jwt_token authorization) as [e|user_id] eqn:Hv.
  { unfold server.create_note, mbind, io_bind, lift. rewrite Hv. discriminate. }
  rewrite (server_create_note_run _ _ _ _ _ _ w tr Hv). cbv zeta.
  destruct (fetched w _) as [e|result] eqn:Hf; [discriminate|].
  destruct (getitem result "note_id") as [e|note_id] eqn:Hid; [discriminate|].
  intros [= <- <-].
  destruct (fetched_inv _ _ _ Hf) as (resp & Hresp & _ & Hbody).
  split.
  { unfold created_note, created_note_keys.
    rewrite !dom_insert_L, dom_empty_L. set_solver. }
  unfold created_note.
  do 5 (split; [now simplify_map_eq|]).
  eexists _, resp, result, note_id.
  split; [reflexivity|]. split; [exact Hresp|]. split; [exact Hbody|].
  split; [exact Hid|]. now simplify_map_eq.
Qed.

(** *** Health *)

(** X9: the façade's health check never raises, whatever the backend does:
    it sends one GET to /health under the base URL, with no header at all
    (neither the API key nor a token) and a 10 second timeout, and
    returns mcp_server healthy, the configured URL, and a fastapi_server
    that is healthy or unhealthy, never the fallback unknown. GET /health
    therefore answers 200 in every world. *)
Theorem health_always_answers (w : world) (tr : list event) :
  exists (details : gmap string json) (r : http_request),
    server.health_check settings w tr
      = (inr details, (tr ++ [ClientCall m_health_check; HttpSend r])%list)
    /\ req_method r = GET
    /\ req_url r = fastapi_base_url settings +:+ "/health"
    /\ req_headers r = ∅
    /\ req_timeout r = 10
    /\ details !! "mcp_server" = Some (JStr "healthy")
    /\ details !! "fastapi_url" = Some (JStr (fastapi_base_url settings))
    /\ (details !! "fastapi_server" = Some (JStr "healthy")
        \/ details !! "fastapi_server" = Some (JStr "unhealthy"))
    /\ status_code (fst (serve (health settings) w tr)) = 200.
Proof.
  assert (Hrun : exists status details,
             server.health_check settings w tr
               = (inr details,
                  (tr ++ [ClientCall m_health_check; HttpSend (health_probe settings)])%list)
             /\ (status = "healthy" \/ status = "unhealthy")
             /\ details !! "mcp_server" = Some (JStr "healthy")
             /\ details !! "fastapi_url" = Some (JStr (fastapi_base_url settings))
             /\ details !! "fastapi_server" = Some (JStr status)).
  { unfold server.health_check, mbind, io_bind. rewrite health_check_run.
    destruct (transport w (health_probe settings)) as [message|resp].
    - exists "unhealthy". eexists. split; [reflexivity|].
      split; [now right|]. rewrite lookup2_first. repeat split; now simplify_map_eq.
    - exists "healthy". eexists. split; [reflexivity|].
      split; [now left|]. rewrite lookup2_first. repeat split; now simplify_map_eq. }
  destruct Hrun as (status & details & Hrun & Hstatus & Hmcp & Hurl & Hsrv).
  exists details, (health_probe settings).
  split; [exact Hrun|].
  do 4 (split; [reflexivity|]).
  split; [exact Hmcp|]. split; [exact Hurl|].
  split; [destruct Hstatus as [-> | ->]; auto|].
  unfold health. now rewrite (serve_returned _ _ w tr _ Hrun).
Qed.

(** *** Error answers *)

(** X10: in the answer to a route that raised, the error code tells the
    two handlers apart. It is INTERNAL_ERROR exactly when the exception is
    not an HTTPException; for an HTTPException it is HTTP_ followed by the
    status in decimal, and the answer keeps the exception's status,
    detail and headers. *)
Theorem error_code_tells_handlers_apart (run : io (gmap string json)) (e : exn)
    (w : world) (tr tr' : list event) :
  run w tr = (inl e, tr') ->
  let answer := fst (serve run w tr) in
  exists detail code : string,
    content answer = error_envelope detail code
    /\ (code = "INTERNAL_ERROR" <-> forall c d h, e <> HTTPException c d h)
    /\ (forall c d h,
          e = HTTPException c d h ->
          code = "HTTP_" +:+ py.str c
          /\ detail = d
          /\ status_code answer = c
          /\ response_headers answer = h).
Proof.
  intros Hrun answer. subst answer. rewrite (serve_raised _ _ _ _ _ Hrun).
  destruct e as [c d h| | | | | | | |];
    try (eexists _, "INTERNAL_ERROR"; split; [reflexivity|];
         split; [split; [intros _ c d h; discriminate | reflexivity]
                | intros c d h; discriminate]).
  exists d, ("HTTP_" +:+ py.str c). split; [reflexivity|]. split.
  - split; [discriminate | intros Hne; now destruct (Hne c d h)].
  - intros c' d' h' [= <- <- <-]. auto.
Qed.

(** X11: on every protected route, with a verified user, a backend answer
    with a 2xx status whose body is not JSON makes the route raise a
    JSONDecodeError after the one request was sent, and the answer is
    500 with the error code INTERNAL_ERROR. *)
Theorem non_json_body_is_internal_error (route : protected_route)
    (authorization : option string) (user_id : Z) (w : world) (tr : list event) :
  verify_jwt_token authorization = inr user_id ->
  let run := handle verify_jwt_token format_tasks_for_ui settings route authorization in
  exists (m : client_method) (r : http_request),
    snd (run w tr) = (tr ++ [ClientCall m; HttpSend r])%list
    /\ (forall resp : http_response,
          transport w r = Responds resp ->
          is_success (resp_status resp) = true ->
          resp_body resp = None ->
          exists message : string,
            fst (run w tr) = inl (JSONDecodeError message)
            /\ status_code (fst (serve run w tr)) = 500
            /\ content (fst (serve run w tr))
               = error_envelope ("Internal server error: " +:+ message) "INTERNAL_ERROR").
Proof.
  intros Hv run.
  destruct (route_fetches verify_jwt_token format_tasks_for_ui settings route
              authorization user_id w tr Hv) as (m & r & Htr & Herr).
  exists m, r. split; [exact Htr|].
  intros resp Hresp Hgood Hbody.
  assert (Hf : fetched w r
               = inl (JSONDecodeError "Expecting value: line 1 column 1 (char 0)")).
  { unfold fetched, response_json. now rewrite Hresp, Hgood, Hbody. }
  exists "Expecting value: line 1 column 1 (char 0)". split; [exact (Herr _ Hf)|].
  apply (serve_unexpected run (JSONDecodeError "Expecting value: line 1 column 1 (char 0)")
           w tr (snd (run w tr))); [|discriminate].
  rewrite <- (Herr _ Hf). apply surjective_pairing.
Qed.

(** X12: the inbound authorization header reaches the backend only through
    the user it verifies to. Two headers that verify to the same user give
    the same run of each protected operation: the same trace, hence the
    same outbound request, and the same result or error. *)
Theorem inbound_header_is_not_forwarded (authorization1 authorization2 : option string)
    (user_id : Z) (w : world) (tr : list event) :
  verify_jwt_token authorization1 = inr user_id ->
  verify_jwt_token authorization2 = inr user_id ->
  tasks_of authorization1 w tr = tasks_of authorization2 w tr
  /\ categories_of authorization1 w tr = categories_of authorization2 w tr
  /\ (forall (title : string) (position_x position_y color : option string),
        note_of authorization1 title position_x position_y color w tr
        = note_of authorization2 title position_x position_y color w tr).
Proof.
  intros Hv1 Hv2. split; [|split].
  - now rewrite (server_get_tasks_run _ _ w tr Hv1), (server_get_tasks_run _ _ w tr Hv2).
  - now rewrite (server_get_categories_run _ _ w tr Hv1),
      (server_get_categories_run _ _ w tr Hv2).
  - intros title position_x position_y color.
    now rewrite (server_create_note_run _ _ _ _ _ _ w tr Hv1),
      (server_create_note_run _ _ _ _ _ _ w tr Hv2).
Qed.

End Coverage.

(** *** The further properties on the sample run *)

Lemma read_operations_send_one_request_witness :
  sample.verify (sample.bearer 7 30) = inr 7
  /\ exists r_tasks r_categories,
       snd (server.get_tasks (H := plain_jwt.lib) sample.verify sample.format
              plain_jwt.settings (sample.bearer 7 30) sample.backend_down [])
         = [ClientCall m_get_tasks; HttpSend r_tasks]
       /\ snd (server.get_categories (H := plain_jwt.lib) sample.verify
                 plain_jwt.settings (sample.bearer 7 30) sample.backend_down [])
          = [ClientCall m_get_categories; HttpSend r_categories]
       /\ req_url r_tasks = "http://localhost:8080/tasks/"
       /\ req_headers r_tasks !! "X-API-Key" = Some "test-api-key".
Proof.
  assert (Hok : sample.verify (sample.bearer 7 30) = inr 7) by (vm_compute; reflexivity).
  split; [exact Hok|].
  destruct (@read_operations_send_one_request plain_jwt.lib sample.verify sample.format
              plain_jwt.settings (sample.bearer 7 30) 7 sample.backend_down [] Hok)
    as (token & r_tasks & r_categories & _ & Ht & Hc & Hurl & _ & Hreq).
  exists r_tasks, r_categories.
  split; [exact Ht|]. split; [exact Hc|]. split; [exact Hurl|].
  destruct (Hreq r_tasks (or_introl eq_refl)) as (_ & _ & _ & Hkey & _).
  exact Hkey.
Defined.

Lemma create_note_sends_one_post_witness :
  sample.verify (sample.bearer 7 30) = inr 7
  /\ exists r body,
       snd (server.create_note (H := plain_jwt.lib) sample.verify plain_jwt.settings
              (sample.bearer 7 30) "Comprare il latte" None (Some "120") None
              sample.backend_down [])
         = [ClientCall m_create_note; HttpSend r]
       /\ req_json r = Some (JObj body)
       /\ body !! "user_id" = Some (JInt 7)
       /\ body !! "position_x" = Some (JStr "0")
       /\ body !! "position_y" = Some (JStr "120").
Proof.
  assert (Hok : sample.verify (sample.bearer 7 30) = inr 7) by (vm_compute; reflexivity).
  split; [exact Hok|].
  destruct (@create_note_sends_one_post plain_jwt.lib sample.verify plain_jwt.settings
              (sample.bearer 7 30) 7 "Comprare il latte" None (Some "120") None
              sample.backend_down [] Hok)
    as (token & r & body & _ & Htr & _ & _ & _ & _ & _ & Hjson & _ & Huser & _ & Hx & Hy & _).
  exists r, body. auto.
Defined.

Lemma service_token_valid_for_thirty_minutes_witness :
  jwt.reads_back (H := plain_jwt.lib)
    (jwt.sign (H := plain_jwt.lib) (service_payload 7 sample.clock0) service_key "HS256")
  /\ exists token,
       FastAPIClient._get_user_token (H := plain_jwt.lib)
         (server.fastapi_client plain_jwt.settings) 7 sample.backend_ok []
       = (inr token, [])
       /\ (exists payload,
             jwt.decode (H := plain_jwt.lib) (sample.clock0 + 1799) token service_key "HS256"
             = inr payload
             /\ exists sub, payload !! "sub" = Some (JStr sub) /\ py.int sub = Some 7)
       /\ jwt.decode (H := plain_jwt.lib) (sample.clock0 + 1800) token service_key "HS256"
          = inl ExpiredSignatureError
       /\ jwt.decode (H := plain_jwt.lib) sample.clock0 token "test-secret" "HS256"
          = inl InvalidSignatureError.
Proof.
  assert (Hrb : jwt.reads_back (H := plain_jwt.lib)
                  (jwt.sign (H := plain_jwt.lib) (service_payload 7 sample.clock0)
                     service_key "HS256")) by (vm_compute; reflexivity).
  split; [exact Hrb|].
  destruct (@service_token_valid_for_thirty_minutes plain_jwt.lib plain_jwt.settings
              7 sample.backend_ok [] Hrb)
    as (token & Hrun & Hbefore & Hafter & Hkey).
  exists token. split; [exact Hrun|]. split; [|split].
  - destruct (Hbefore (sample.clock0 + 1799)) as (payload & Hdec & Hsub & _);
      [vm_compute; reflexivity|].
    exists payload. split; [exact Hdec | exact Hsub].
  - apply Hafter. vm_compute. discriminate.
  - apply Hkey. intros E. vm_compute in E. discriminate E.
Defined.

Lemma get_tasks_returns_iff_witness :
  server.get_tasks (H := plain_jwt.lib) sample.verify sample.format plain_jwt.settings
    (sample.bearer 7 30) sample_backends.listing []
  = (inr (<["type" := JStr "task_list"]>
            (<["tasks" := JArr sample_backends.two_categories]> ∅)),
     [ClientCall m_get_tasks;
      HttpSend (backend_request (H := plain_jwt.lib) plain_jwt.settings GET "/tasks/" None
                  7 sample.clock0)]).
Proof.
  apply (proj2 (@get_tasks_returns_iff plain_jwt.lib sample.verify sample.format
                  plain_jwt.settings (sample.bearer 7 30) sample_backends.listing [] _ _)).
  exists 7, {| resp_status := 200; resp_body := Some (JArr sample_backends.two_categories) |},
    (JArr sample_backends.two_categories).
  cbv zeta. split; [vm_compute; reflexivity|]. split; [reflexivity|].
  split; [simpl; lia|]. split; [reflexivity|]. split; reflexivity.
Defined.

Lemma get_categories_counts_witness :
  exists tr',
    server.get_categories (H := plain_jwt.lib) sample.verify plain_jwt.settings
      (sample.bearer 7 30) sample_backends.listing []
    = (inr (<["categories" := JArr sample_backends.two_categories]>
              (<["total" := JInt 2]> ∅)), tr').
Proof.
  assert (Hok : sample.verify (sample.bearer 7 30) = inr 7) by (vm_compute; reflexivity).
  destruct (@get_categories_counts plain_jwt.lib sample.verify plain_jwt.settings
              (sample.bearer 7 30) 7 sample_backends.listing []
              {| resp_status := 200; resp_body := Some (JArr sample_backends.two_categories) |}
              sample_backends.two_categories Hok eq_refl eq_refl eq_refl)
    as (Hrun & _).
  eexists. exact Hrun.
Defined.

Lemma get_categories_unsized_body_witness :
  exists message tr',
    server.get_categories (H := plain_jwt.lib) sample.verify plain_jwt.settings
      (sample.bearer 7 30) sample_backends.null_body []
    = (inl (TypeError message), tr')
    /\ http_server.status_code
         (fst (http_server.serve
                 (http_server.http_get_categories (H := plain_jwt.lib) sample.verify
                    plain_jwt.settings (sample.bearer 7 30))
                 sample_backends.null_body [])) = 500.
Proof.
  assert (Hok : sample.verify (sample.bearer 7 30) = inr 7) by (vm_compute; reflexivity).
  destruct (@get_categories_unsized_body plain_jwt.lib sample.verify plain_jwt.settings
              (sample.bearer 7 30) 7 sample_backends.null_body []
              {| resp_status := 200; resp_body := Some JNull |} JNull
              Hok eq_refl eq_refl eq_refl eq_refl)
    as (message & Hrun & Hstatus & _).
  exists message. eexists. split; [exact Hrun | exact Hstatus].
Defined.

Lemma create_note_missing_note_id_witness :
  let request :=
    http_server.CreateNoteRequest__init__ "Comprare il latte" None None None in
  let route :=
    http_server.http_create_note (H := plain_jwt.lib) sample.verify plain_jwt.settings
      request (sample.bearer 7 30) in
  fst (route sample_backends.nameless []) = inl (KeyError "note_id")
  /\ http_server.content (fst (http_server.serve route sample_backends.nameless []))
     = error_envelope "Internal server error: 'note_id'" "INTERNAL_ERROR".
Proof.
  intros request route.
  assert (Hok : sample.verify (sample.bearer 7 30) = inr 7) by (vm_compute; reflexivity).
  destruct (@create_note_missing_note_id plain_jwt.lib sample.verify plain_jwt.settings
              (sample.bearer 7 30) 7 request sample_backends.nameless []
              {| resp_status := 201;
                 resp_body := Some (JObj (<["status_code" := JInt 201]> ∅)) |}
              (<["status_code" := JInt 201]> ∅)
              Hok eq_refl eq_refl eq_refl eq_refl)
    as (Hrun & _ & Hcontent).
  split; [|exact Hcontent].
  subst route. now rewrite Hrun.
Defined.

Lemma create_note_echoes_arguments_witness :
  exists note tr',
    server.create_note (H := plain_jwt.lib) sample.verify plain_jwt.settings
      (sample.bearer 7 30) "Comprare il latte" (Some "40") None (Some "#4CAF50")
      sample.backend_ok [] = (inr note, tr')
    /\ dom note = created_note_keys
    /\ note !! "position_x" = Some (JStr "40")
    /\ note !! "position_y" = Some (JStr "0")
    /\ note !! "color" = Some (JStr "#4CAF50").
Proof.
  assert (Hrun : exists note tr',
             server.create_note (H := plain_jwt.lib) sample.verify plain_jwt.settings
               (sample.bearer 7 30) "Comprare il latte" (Some "40") None (Some "#4CAF50")
               sample.backend_ok [] = (inr note, tr'))
    by (eexists _, _; vm_compute; reflexivity).
  destruct Hrun as (note & tr' & Hrun).
  destruct (@create_note_echoes_arguments plain_jwt.lib sample.verify plain_jwt.settings
              (sample.bearer 7 30) "Comprare il latte" (Some "40") None (Some "#4CAF50")
              sample.backend_ok [] tr' note Hrun)
    as (Hdom & _ & Hx & Hy & Hc & _).
  exists note, tr'. auto.
Defined.

Lemma error_code_tells_handlers_apart_witness :
  let run :=
    server.get_tasks (H := plain_jwt.lib) sample.verify sample.format plain_jwt.settings
      None in
  exists detail,
    http_server.content (fst (http_server.serve run sample.backend_ok []))
    = error_envelope detail "HTTP_401".
Proof.
  intros run.
  assert (Hrun : run sample.backend_ok []
                 = (inl (auth.unauthenticated "Missing Authorization header"), []))
    by reflexivity.
  destruct (error_code_tells_handlers_apart run _ sample.backend_ok [] [] Hrun)
    as (detail & code & Hcontent & _ & Hhttp).
  destruct (Hhttp 401 "Missing Authorization header" None eq_refl) as (Hcode & _).
  exists detail. rewrite Hcontent, Hcode. reflexivity.
Defined.

Lemma non_json_body_is_internal_error_witness :
  let run :=
    http_server.handle (H := plain_jwt.lib) sample.verify sample.format plain_jwt.settings
      http_server.route_get_tasks (sample.bearer 7 30) in
  exists message,
    fst (run sample_backends.not_json []) = inl (JSONDecodeError message)
    /\ http_server.status_code (fst (http_server.serve run sample_backends.not_json []))
       = 500.
Proof.
  intros run.
  assert (Hok : sample.verify (sample.bearer 7 30) = inr 7) by (vm_compute; reflexivity).
  destruct (@non_json_body_is_internal_error plain_jwt.lib sample.verify sample.format
              plain_jwt.settings http_server.route_get_tasks (sample.bearer 7 30) 7
              sample_backends.not_json [] Hok)
    as (m & r & _ & Hbad).
  destruct (Hbad {| resp_status := 200; resp_body := None |} eq_refl eq_refl eq_refl)
    as (message & Hraise & Hstatus & _).
  exists message. split; [exact Hraise | exact Hstatus].
Defined.

Lemma inbound_header_is_not_forwarded_witness :
  sample.bearer 7 30 <> sample.bearer 7 60
  /\ server.get_tasks (H := plain_jwt.lib) sample.verify sample.format plain_jwt.settings
       (sample.bearer 7 30) sample_backends.listing []
     = server.get_tasks (H := plain_jwt.lib) sample.verify sample.format plain_jwt.settings
         (sample.bearer 7 60) sample_backends.listing [].
Proof.
  split.
  - intros E. vm_compute in E. discriminate E.
  - assert (H30 : sample.verify (sample.bearer 7 30) = inr 7) by (vm_compute; reflexivity).
    assert (H60 : sample.verify (sample.bearer 7 60) = inr 7) by (vm_compute; reflexivity).
    destruct (@inbound_header_is_not_forwarded plain_jwt.lib sample.verify sample.format
                plain_jwt.settings (sample.bearer 7 30) (sample.bearer 7 60) 7
                sample_backends.listing [] H30 H60) as (Ht & _).
    exact Ht.
Defined.
